(** * webhook-gateway: the routing core (pkg/gateway, pkg/service) and the
      Cloudflare Notifications source, as a shallow embedding in Rocq.

    Go values are modelled as follows:
    - an [error] is [option string]: [None] is [nil], [Some m] an error whose
      [Error()] is [m]; [fmt.Errorf("...: %w", err)] is string concatenation;
    - [context.Context] is the chain of contexts built by the program;
    - a TOML tree ([any] as decoded by the TOML library) is the inductive
      [TOML], a Go [map[string]any] an association list;
    - interface values ([Source], [Destination], [Handler]) are records of
      their methods; a nil interface is [None];
    - calls to adapters are recorded in an event trace so that the order of
      the calls can be stated. *)

From Stdlib Require Import String Ascii List Bool Arith Lia.
Import ListNotations.
Open Scope string_scope.
Set Warnings "-register-all".

(** Go [error]. *)
Definition error := option string.

(** A newline, as appended by [fmt.Fprintln]. *)
Definition nl : string := String (ascii_of_nat 10) EmptyString.

(** ** Decoded TOML trees ([any] as handed to [UnmarshalTOML]). *)

Inductive TOML : Type :=
| TString (s : string)
| TInteger (n : nat)
| TBool (b : bool)
| TTable (kvs : list (string * TOML))            (* map[string]any *)
| TArray (vs : list TOML)                        (* []any *)
| TTableArray (ts : list (list (string * TOML))). (* []map[string]any *)

(** [m[k]] on a [map[string]any]: [nil] ([None]) when the key is absent. *)
Fixpoint tbl_get (m : list (string * TOML)) (k : string) : option TOML :=
  match m with
  | [] => None
  | (k', v) :: rest => if String.eqb k k' then Some v else tbl_get rest k
  end.

(** The type assertion [v.(map[string]any)]. *)
Definition as_table (v : option TOML) : option (list (string * TOML)) :=
  match v with Some (TTable kvs) => Some kvs | _ => None end.

(** The type assertion [v.(string)]. *)
Definition as_string (v : option TOML) : option string :=
  match v with Some (TString s) => Some s | _ => None end.

(** The type assertion [v.([]map[string]any)]. *)
Definition as_table_array (v : option TOML) : option (list (list (string * TOML))) :=
  match v with Some (TTableArray ts) => Some ts | _ => None end.

(** ** Contexts ([context.Context]). *)

(** Dynamic values stored in a context ([any]). *)
Inductive Value : Type :=
| VString (s : string)
| VInteger (n : nat)
| VOther.

(** Context keys. Go compares keys with [==] on interfaces: equal dynamic
    type and equal value. [KGateway n] is [gateway.contextKey(n)], a type
    unexported from package gateway; [KForeign ty n] is a key of any other
    type [ty]. *)
Inductive Key : Type :=
| KGateway (n : nat)
| KForeign (ty : string) (n : nat).

Definition key_eqb (a b : Key) : bool :=
  match a, b with
  | KGateway n, KGateway m => Nat.eqb n m
  | KForeign t n, KForeign u m => String.eqb t u && Nat.eqb n m
  | _, _ => false
  end.

Inductive Context : Type :=
| Background
| WithValue (parent : Context) (k : Key) (v : Value)
| WithCancel (parent : Context).

(** [ctx.Value(key)]: the innermost value stored under [key], [nil] if none. *)
Fixpoint ctx_Value (ctx : Context) (key : Key) : option Value :=
  match ctx with
  | Background => None
  | WithValue p k v => if key_eqb k key then Some v else ctx_Value p key
  | WithCancel p => ctx_Value p key
  end.

(** ** HTTP requests and responses. *)

(** A request body: readable to the end, or failing after a prefix. *)
Inductive Body : Type :=
| BodyBytes (s : string)
| BodyFailing (prefix : string) (e : string).

(** [io.ReadAll(r.Body)]. *)
Definition io_ReadAll (b : Body) : string * error :=
  match b with
  | BodyBytes s => (s, None)
  | BodyFailing p e => (p, Some e)
  end.

(** [http.Header]: canonical key to values. *)
Definition Header := list (string * list string).

Record Request : Type := mkRequest {
  req_ctx : Context;
  req_header : Header;
  req_body : Body
}.

(** [r.WithContext(ctx)]. *)
Definition WithContext (r : Request) (ctx : Context) : Request :=
  mkRequest ctx (req_header r) (req_body r).

(** [r.Context()]. *)
Definition req_Context (r : Request) : Context := req_ctx r.

(** The status and body written by a handler; a handler that writes nothing
    answers [200] with an empty body. *)
Record Response : Type := mkResponse { status : nat; body : string }.

Definition StatusOK : nat := 200.
Definition StatusBadRequest : nat := 400.

Definition response_default : Response := mkResponse StatusOK "".

(** [http.Error(w, msg, code)]: [WriteHeader(code)] then [fmt.Fprintln(w, msg)]. *)
Definition http_Error (msg : string) (code : nat) : Response :=
  mkResponse code (msg ++ nl).

(** [fmt.Sprintf("%s", err)] for an error operand. *)
Definition fmt_s (err : error) : string :=
  match err with
  | None => "%!s(<nil>)"
  | Some m => m
  end.

(** ** Messages, sources and destinations (pkg/gateway/gateway.go). *)

Record Message : Type := mkMessage { Content : string }.

(** Calls made by the routing core on the adapters it drives. *)
Inductive Event : Type :=
| EvSourceInit
| EvDestinationInit
| EvParseHTTP
| EvPushMessages (msgs : list Message).

(** A [Source] value: its methods, and its optional [UnmarshalTOML] method
    (present when the concrete type implements [tomlUnmarshaler]), which
    returns the configured adapter. *)
Inductive Source : Type := mkSource {
  src_ParseHTTP : Request -> list Message * error;
  src_Init : Context -> error;
  src_UnmarshalTOML : option (TOML -> Source * error)
}.

Inductive Destination : Type := mkDestination {
  dst_PushMessages : Context -> list Message -> error;
  dst_Init : Context -> error;
  dst_UnmarshalTOML : option (TOML -> Destination * error)
}.

Module Gateway.

(** [type Gateway struct]; the logger is not modelled. *)
Record Gateway : Type := mkGateway {
  path : string;
  secret : string;
  source : option Source;
  destination : option Destination
}.

Definition set_path (g : Gateway) (p : string) : Gateway :=
  mkGateway p (secret g) (source g) (destination g).
Definition set_secret (g : Gateway) (s : string) : Gateway :=
  mkGateway (path g) s (source g) (destination g).
Definition set_source (g : Gateway) (s : option Source) : Gateway :=
  mkGateway (path g) (secret g) s (destination g).
Definition set_destination (g : Gateway) (d : option Destination) : Gateway :=
  mkGateway (path g) (secret g) (source g) d.

(** [New()] with no options. *)
Definition New : Gateway := mkGateway "" "" None None.

(** [secretKey contextKey = iota]. *)
Definition secretKey : Key := KGateway 0.

(** [SetSecret]: [context.WithValue(ctx, secretKey, secret)]. *)
Definition SetSecret (ctx : Context) (secret : string) : Context :=
  WithValue ctx secretKey (VString secret).

(** [GetSecret]: [ctx.Value(secretKey).(string)], or [""]. *)
Definition GetSecret (ctx : Context) : string :=
  match ctx_Value ctx secretKey with
  | Some (VString v) => v
  | _ => ""
  end.

(** [func (g *Gateway) Init(ctx) error]: the receiver after the call, the
    adapter calls made, and the returned error. *)
Definition Init (ctx : Context) (g : Gateway) : Gateway * list Event * error :=
  if String.eqb (path g) "" && String.eqb (secret g) "" then
    (g, [], Some "no path or secret found in gateway configuration")
  else
    let g := if String.eqb (path g) "" then set_path g ("/" ++ secret g) else g in
    match source g with
    | None => (g, [], Some "no source configuration found")
    | Some src =>
        match src_Init src ctx with
        | Some err => (g, [EvSourceInit], Some ("failed initializing source: " ++ err))
        | None =>
            match destination g with
            | None => (g, [EvSourceInit], Some "no destination configuration found")
            | Some dst =>
                match dst_Init dst ctx with
                | Some err =>
                    (g, [EvSourceInit; EvDestinationInit],
                     Some ("failed initializing destination: " ++ err))
                | None => (g, [EvSourceInit; EvDestinationInit], None)
                end
            end
        end
    end.

(** The handler function built by [HandleHTTP]: the response written, or
    [None] when the handler panics on a nil interface, and the adapter calls
    made. *)
Definition handler (g : Gateway) (r : Request) : option Response * list Event :=
  let r := WithContext r (SetSecret (req_Context r) (secret g)) in
  match source g with
  | None => (None, [])
  | Some src =>
      let '(msg, err) := src_ParseHTTP src r in
      if match err with Some _ => true | None => false end || Nat.eqb (length msg) 0 then
        (Some (http_Error ("failed processing incoming request: " ++ fmt_s err)
                          StatusBadRequest), [EvParseHTTP])
      else
        match destination g with
        | None => (None, [EvParseHTTP])
        | Some dst =>
            match dst_PushMessages dst (req_Context r) msg with
            | Some err =>
                (Some (http_Error ("failed pushing notification messages: " ++ err)
                                  StatusBadRequest), [EvParseHTTP; EvPushMessages msg])
            | None => (Some response_default, [EvParseHTTP; EvPushMessages msg])
            end
        end
  end.

(** [func (g *Gateway) HandleHTTP() (string, http.HandlerFunc)]. *)
Definition HandleHTTP (g : Gateway) : string * (Request -> option Response * list Event) :=
  (path g, handler g).

(** The registries [knownSources] and [knownDestinations]: a Go map from a
    type name to the value its constructor returns. [RegisterSource] stores
    the constructor under its name, replacing any earlier one. *)
Definition Registry (A : Type) := list (string * A).

Fixpoint reg_lookup {A : Type} (m : Registry A) (name : string) : option A :=
  match m with
  | [] => None
  | (k, v) :: rest => if String.eqb name k then Some v else reg_lookup rest name
  end.

Definition RegisterSource (m : Registry Source) (name : string) (src : Source)
  : Registry Source := (name, src) :: m.

Definition RegisterDestination (m : Registry Destination) (name : string)
  (dst : Destination) : Registry Destination := (name, dst) :: m.

(** The [source] block of [UnmarshalTOML]: [v] is [conf["source"]]. *)
Definition bind_source (knownSources : Registry Source) (v : option TOML) (g : Gateway)
  : Gateway * error :=
  match as_table v with
  | None => (g, None)
  | Some v =>
      match as_string (tbl_get v "type") with
      | None => (g, Some "empty or missing source type in gateway configuration")
      | Some name =>
          if String.eqb name "" then
            (g, Some "empty or missing source type in gateway configuration")
          else
            match reg_lookup knownSources name with
            | None =>
                (g, Some ("unknown source type '" ++ name ++ "' given in gateway configuration"))
            | Some src =>
                let g := set_source g (Some src) in
                match src_UnmarshalTOML src with
                | None => (g, None)
                | Some m =>
                    match as_table (tbl_get v name) with
                    | None => (g, None)
                    | Some sub =>
                        let '(src', err) := m (TTable sub) in
                        let g := set_source g (Some src') in
                        match err with
                        | Some e =>
                            (g, Some ("failed parsing configuration for source '" ++ name
                                      ++ "': " ++ e))
                        | None => (g, None)
                        end
                    end
                end
            end
      end
  end.

(** The [destination] block of [UnmarshalTOML]: [v] is [conf["destination"]]. *)
Definition bind_destination (knownDestinations : Registry Destination) (v : option TOML)
  (g : Gateway) : Gateway * error :=
  match as_table v with
  | None => (g, None)
  | Some v =>
      match as_string (tbl_get v "type") with
      | None => (g, Some "empty or missing destination type in gateway configuration")
      | Some name =>
          if String.eqb name "" then
            (g, Some "empty or missing destination type in gateway configuration")
          else
            match reg_lookup knownDestinations name with
            | None =>
                (g, Some ("unknown destination type '" ++ name
                          ++ "' given in gateway configuration"))
            | Some dst =>
                let g := set_destination g (Some dst) in
                match dst_UnmarshalTOML dst with
                | None => (g, None)
                | Some m =>
                    match as_table (tbl_get v name) with
                    | None => (g, None)
                    | Some sub =>
                        let '(dst', err) := m (TTable sub) in
                        let g := set_destination g (Some dst') in
                        match err with
                        | Some e =>
                            (g, Some ("failed parsing configuration for destination '" ++ name
                                      ++ "': " ++ e))
                        | None => (g, None)
                        end
                    end
                end
            end
      end
  end.

(** [func (g *Gateway) UnmarshalTOML(data any) error]. *)
Definition UnmarshalTOML (knownSources : Registry Source)
  (knownDestinations : Registry Destination) (data : TOML) (g : Gateway)
  : Gateway * error :=
  match data with
  | TTable conf =>
      let g := match as_string (tbl_get conf "secret") with
               | Some v => set_secret g v | None => g end in
      let g := match as_string (tbl_get conf "path") with
               | Some v => set_path g v | None => g end in
      let '(g, err) := bind_source knownSources (tbl_get conf "source") g in
      match err with
      | Some e => (g, Some e)
      | None => bind_destination knownDestinations (tbl_get conf "destination") g
      end
  | _ => (g, Some "no valid configuration keys found")
  end.

(** The path under which [Init] leaves the gateway (its first branch aside):
    the configured path, or ["/" + secret] when it is empty. *)
Definition resolved_path (g : Gateway) : string :=
  if String.eqb (path g) "" then "/" ++ secret g else path g.

End Gateway.

(** ** How a program builds contexts.

    Outside package gateway no value of type [gateway.contextKey] can be
    written, so foreign code stores values under keys of other types only;
    inside the package, [secretKey] is written by [SetSecret] alone. *)
Inductive CtxExpr : Type :=
| EBackground
| EWithValue (parent : CtxExpr) (ty : string) (n : nat) (v : Value)
| EWithCancel (parent : CtxExpr)
| ESetSecret (parent : CtxExpr) (secret : string).

Fixpoint ctx_eval (e : CtxExpr) : Context :=
  match e with
  | EBackground => Background
  | EWithValue p ty n v => WithValue (ctx_eval p) (KForeign ty n) v
  | EWithCancel p => WithCancel (ctx_eval p)
  | ESetSecret p s => Gateway.SetSecret (ctx_eval p) s
  end.

(** Whether [SetSecret] was called on the context or one of its ancestors. *)
Fixpoint set_secret_called (e : CtxExpr) : bool :=
  match e with
  | EBackground => false
  | EWithValue p _ _ _ => set_secret_called p
  | EWithCancel p => set_secret_called p
  | ESetSecret _ _ => true
  end.

(** ** [textproto.CanonicalMIMEHeaderKey] and [http.Header.Get]. *)

Definition ascii_between (lo hi : nat) (c : ascii) : bool :=
  Nat.leb lo (nat_of_ascii c) && Nat.leb (nat_of_ascii c) hi.

(** [validHeaderFieldByte]: the token characters of RFC 7230. *)
Definition validHeaderFieldByte (c : ascii) : bool :=
  ascii_between 48 57 c || ascii_between 65 90 c || ascii_between 97 122 c
  || existsb (Ascii.eqb c) (list_ascii_of_string "!#$%&'*+-.^_`|~").

Fixpoint all_valid (s : string) : bool :=
  match s with
  | EmptyString => true
  | String c r => validHeaderFieldByte c && all_valid r
  end.

Definition ascii_upper (c : ascii) : ascii :=
  if ascii_between 97 122 c then ascii_of_nat (nat_of_ascii c - 32) else c.
Definition ascii_lower (c : ascii) : ascii :=
  if ascii_between 65 90 c then ascii_of_nat (nat_of_ascii c + 32) else c.

Fixpoint canonical_aux (upper : bool) (s : string) : string :=
  match s with
  | EmptyString => EmptyString
  | String c r =>
      String (if upper then ascii_upper c else ascii_lower c)
             (canonical_aux (Ascii.eqb c "-"%char) r)
  end.

(** A key holding a byte that is not a token character is returned as it is;
    otherwise the first letter and every letter after a hyphen are upper case
    and the others lower case. *)
Definition CanonicalMIMEHeaderKey (s : string) : string :=
  if all_valid s then canonical_aux true s else s.

Fixpoint header_lookup (h : Header) (k : string) : list string :=
  match h with
  | [] => []
  | (k', vs) :: rest => if String.eqb k k' then vs else header_lookup rest k
  end.

(** [h.Get(key)]: the first value stored under the canonical key, or [""]. *)
Definition Header_Get (h : Header) (key : string) : string :=
  match header_lookup h (CanonicalMIMEHeaderKey key) with
  | [] => ""
  | v :: _ => v
  end.

(** ** The Cloudflare Notifications source
       (pkg/source/cloudflare-notifications). *)

Module Notifications.

Record Payload : Type := mkPayload { Text : string }.

Section ParseHTTP.

(** [json.Unmarshal(buf, &payload)] into a zero [Payload]. *)
Variable json_Unmarshal : string -> Payload * error.

(** [func (n *Notifications) ParseHTTP(r *http.Request) ([]*gateway.Message, error)]. *)
Definition ParseHTTP (r : Request) : list Message * error :=
  let auth :=
    let secret := Gateway.GetSecret (req_Context r) in
    if negb (String.eqb secret "") then
      let h := Header_Get (req_header r) "cf-webhook-auth" in
      if String.eqb h "" then Some "cf-webhook-auth header not found"
      else if negb (String.eqb h secret) then Some "invalid authentication token"
      else None
    else None in
  match auth with
  | Some e => ([], Some e)
  | None =>
      let '(buf, err) := io_ReadAll (req_body r) in
      match err with
      | Some e => ([], Some ("failed reading request body: " ++ e))
      | None =>
          let '(payload, err) := json_Unmarshal buf in
          match err with
          | Some e => ([], Some ("failed parsing request: " ++ e))
          | None =>
              if negb (String.eqb (Text payload) "") then
                ([mkMessage (Text payload)], None)
              else ([], Some "no message content found")
          end
      end
  end.

(** [func (n *Notifications) Init(_ context.Context) error]. *)
Definition Init (_ : Context) : error := None.

(** The value registered as ["cloudflare-notifications"]. *)
Definition source : Source := mkSource ParseHTTP Init None.

End ParseHTTP.

(** The errors [ParseHTTP] returns when the credential check fails. *)
Definition is_auth_error (e : string) : bool :=
  String.eqb e "cf-webhook-auth header not found"
  || String.eqb e "invalid authentication token".

End Notifications.

(** ** The HTTP transport (pkg/service/http.go). *)

Definition HandlerFunc := Request -> option Response * list Event.

Module HTTP.

(** [type HTTP struct]: host, port and the [http.ServeMux] behind the
    server, as the patterns registered so far with their handlers. *)
Record HTTP : Type := mkHTTP {
  host : string;
  port : string;
  mux : list (string * HandlerFunc)
}.

(** [NewHTTP(WithHTTPHost(host), WithHTTPPort(port))]. *)
Definition NewHTTP (host port : string) : HTTP := mkHTTP host port [].

Section Transport.

(** The panic, if any, that [ServeMux.HandleFunc] raises when [pattern] is
    registered after the patterns [registered] (invalid or conflicting
    pattern). *)
Variable mux_panic : list string -> string -> option string.

(** [net.Listen("tcp", net.JoinHostPort(host, port))] followed by the start
    of [Serve]: [nil] once the server serves. *)
Variable net_Listen : string -> string -> error.

(** [func (h *HTTP) Handle(pattern string, handler http.HandlerFunc) (err error)]:
    a panic of the mux is recovered into the returned error. *)
Definition Handle (h : HTTP) (pattern : string) (hf : HandlerFunc) : HTTP * error :=
  match mux_panic (map fst (mux h)) pattern with
  | Some msg => (h, Some msg)
  | None => (mkHTTP (host h) (port h) ((pattern, hf) :: mux h), None)
  end.

(** [func (h *HTTP) Init(ctx context.Context) error]. *)
Definition Init (h : HTTP) (_ : Context) : error := net_Listen (host h) (port h).

End Transport.

End HTTP.

(** ** The service (pkg/service/service.go). *)

Module Service.

(** Calls made by [Service.Init] on its handler and gateways; routes are
    numbered from 0 in configuration order. *)
Inductive SEvent : Type :=
| SHandle (pattern : string)
| SGatewayInit (i : nat)
| SHandlerInit.

(** [handleHealth]. *)
Definition health_path : string := "/_health".
Definition health_handler : HandlerFunc := fun _ => (Some (mkResponse StatusOK ""), []).

Section Init.

(** The [Handler] interface: a transport with state [HS]. *)
Variable HS : Type.
Variable Handle : HS -> string -> HandlerFunc -> HS * error.
Variable HInit : HS -> Context -> error.
Variable ctx : Context.

(** [type Service struct]; the logger is not modelled. *)
Record Service : Type := mkService {
  gateway : list Gateway.Gateway;
  handler : option HS
}.

(** The loop over [s.gateway] in [Init]: the handler state, the gateways as
    left by their [Init], the calls made, and the error returned. *)
Fixpoint init_gateways (i : nat) (hs : HS) (gws : list Gateway.Gateway)
  : HS * list Gateway.Gateway * list SEvent * error :=
  match gws with
  | [] => (hs, [], [], None)
  | g :: rest =>
      let '(g', _, err) := Gateway.Init ctx g in
      match err with
      | Some e => (hs, g' :: rest, [SGatewayInit i], Some ("failed initializing gateway: " ++ e))
      | None =>
          let '(p, hf) := Gateway.HandleHTTP g' in
          let '(hs', herr) := Handle hs p hf in
          match herr with
          | Some e =>
              (hs', g' :: rest, [SGatewayInit i; SHandle p],
               Some ("failed setting up request handler for gateway: " ++ e))
          | None =>
              let '(hs'', rest', ev, err') := init_gateways (S i) hs' rest in
              (hs'', g' :: rest', SGatewayInit i :: SHandle p :: ev, err')
          end
      end
  end.

(** [func (s *Service) Init(ctx context.Context) error]. *)
Definition Init (s : Service) : option HS * list Gateway.Gateway * list SEvent * error :=
  match handler s with
  | None => (None, gateway s, [], Some "no request handler configuration found")
  | Some hs =>
      match gateway s with
      | [] => (Some hs, [], [], Some "no gateway configuration found")
      | gws =>
          let '(hs1, e1) := Handle hs health_path health_handler in
          match e1 with
          | Some e =>
              (Some hs1, gws, [SHandle health_path],
               Some ("failed setting up request handler for health-checks: " ++ e))
          | None =>
              let '(hs2, gws', ev, e2) := init_gateways 0 hs1 gws in
              match e2 with
              | Some e => (Some hs2, gws', SHandle health_path :: ev, Some e)
              | None =>
                  match HInit hs2 ctx with
                  | Some e =>
                      (Some hs2, gws', SHandle health_path :: ev ++ [SHandlerInit],
                       Some ("failed initializing request handler: " ++ e))
                  | None => (Some hs2, gws', SHandle health_path :: ev ++ [SHandlerInit], None)
                  end
              end
          end
      end
  end.

End Init.

Arguments mkService {HS}.
Arguments gateway {HS}.
Arguments handler {HS}.

(** [New()] with no options. *)
Definition New {HS : Type} : Service HS := mkService [] None.

(** The loop over [conf["gateway"]] in [UnmarshalTOML]. *)
Fixpoint bind_gateways (knownSources : Gateway.Registry Source)
  (knownDestinations : Gateway.Registry Destination) (entries : list (list (string * TOML)))
  (s : Service HTTP.HTTP) : Service HTTP.HTTP * error :=
  match entries with
  | [] => (s, None)
  | e :: rest =>
      let '(g, err) := Gateway.UnmarshalTOML knownSources knownDestinations (TTable e)
                         Gateway.New in
      match err with
      | Some m => (s, Some ("failed parsing gateway configuration: " ++ m))
      | None =>
          bind_gateways knownSources knownDestinations rest
            (mkService (gateway s ++ [g]) (handler s))
      end
  end.

(** [func (s *Service) UnmarshalTOML(data any) error]. *)
Definition UnmarshalTOML (knownSources : Gateway.Registry Source)
  (knownDestinations : Gateway.Registry Destination) (data : TOML) (s : Service HTTP.HTTP)
  : Service HTTP.HTTP * error :=
  match data with
  | TTable conf =>
      let s := match as_table (tbl_get conf "http") with
               | Some v =>
                   let host := match as_string (tbl_get v "host") with
                               | Some h => h | None => "" end in
                   let port := match as_string (tbl_get v "port") with
                               | Some p => p | None => "" end in
                   mkService (gateway s) (Some (HTTP.NewHTTP host port))
               | None => s
               end in
      match as_table_array (tbl_get conf "gateway") with
      | None => (s, None)
      | Some entries => bind_gateways knownSources knownDestinations entries s
      end
  | _ => (s, Some "no valid configuration keys found")
  end.

End Service.

(** ** [main] (cmd/webhook-gateway): decode the configuration into a new
    service, then initialize it; any error exits the process.

    [toml.DecodeFile] is the library's: it either fails on the file itself
    ([inr e], a read or syntax error) or parses the file into its top-level
    table [conf] ([inl conf]) and hands it to [Service.UnmarshalTOML]. An
    error [e] that [Service.UnmarshalTOML] returns comes back from
    [DecodeFile] wrapped by the decoder as a [toml.ParseError], whose text
    ["toml: line N ...: " ++ e] is [decode_err e]. *)

Inductive Outcome : Type :=
| ExitFailure (stage : string) (err : string)
| Serving (h : HTTP.HTTP) (gws : list Gateway.Gateway).

Definition main (mux_panic : list string -> string -> option string)
  (net_Listen : string -> string -> error) (knownSources : Gateway.Registry Source)
  (knownDestinations : Gateway.Registry Destination) (decode_err : string -> string)
  (decoded : list (string * TOML) + string) (ctx : Context) : Outcome :=
  match decoded with
  | inr e => ExitFailure "Failed to load TOML configuration" e
  | inl conf =>
      match Service.UnmarshalTOML knownSources knownDestinations (TTable conf) Service.New with
      | (_, Some e) => ExitFailure "Failed to load TOML configuration" (decode_err e)
      | (s, None) =>
          match Service.Init HTTP.HTTP (HTTP.Handle mux_panic) (HTTP.Init net_Listen) ctx s with
          | (_, _, _, Some e) => ExitFailure "Failed to initialize service" e
          | (Some h, gws, _, None) => Serving h gws
          | (None, gws, _, None) => ExitFailure "Failed to initialize service" "" (* unreachable *)
          end
      end
  end.

(** The calls [Service.Init] makes for routes [i, i+1, ...] that all
    initialize and register: each route's [Init], then the registration of
    its resolved path. *)
Fixpoint route_trace (i : nat) (gws : list Gateway.Gateway) : list Service.SEvent :=
  match gws with
  | [] => []
  | g :: rest =>
      Service.SGatewayInit i :: Service.SHandle (Gateway.resolved_path g) :: route_trace (S i) rest
  end.

(** Whether an error message mentions [needle]. *)
Definition mentions (msg needle : string) : bool :=
  match String.index 0 needle msg with Some _ => true | None => false end.

(** ** JIDs (mellium.im/xmpp/jid), as used by the XMPP destination and by
    stanzas: the three parts of an address. *)

Module Jid.

Record JID : Type := mkJID {
  Localpart : string;
  Domainpart : string;
  Resourcepart : string
}.

(** The zero value [jid.JID{}]. *)
Definition zero : JID := mkJID "" "" "".

(** [j.Equal(j2)]: all three parts equal. *)
Definition Equal (j j2 : JID) : bool :=
  String.eqb (Localpart j) (Localpart j2) && String.eqb (Domainpart j) (Domainpart j2)
  && String.eqb (Resourcepart j) (Resourcepart j2).

(** [j.Bare()]: the address without its resource part. *)
Definition Bare (j : JID) : JID := mkJID (Localpart j) (Domainpart j) "".

(** [j.String()]: [local@domain/resource], each separator only when the
    part next to it is not empty. *)
Definition String (j : JID) : string :=
  let s := Domainpart j in
  let s := if String.eqb (Localpart j) "" then s else Localpart j ++ "@" ++ s in
  if String.eqb (Resourcepart j) "" then s else s ++ "/" ++ Resourcepart j.

End Jid.

(** ** XML names, attributes and tokens (encoding/xml, mellium.im/xmlstream). *)

Record XName : Type := mkXName { Space : string; Local : string }.
Record XAttr : Type := mkXAttr { AName : XName; AValue : string }.
Record StartElement : Type := mkStartElement { SName : XName; SAttr : list XAttr }.

Inductive Token : Type :=
| TokStart (se : StartElement)
| TokEnd (n : XName)
| TokOther (s : string).

(** [xmlstream.Wrap(r, start)]: the start element, the tokens of [r], then
    the matching end element. *)
Definition xmlstream_Wrap (payload : list Token) (start : StartElement) : list Token :=
  TokStart start :: (payload ++ [TokEnd (SName start)])%list.

(** ** Message stanzas (vendor/mellium.im/xmpp/stanza/message.go). *)

Module Stanza.

(** [ns.XML]. *)
Definition ns_XML : string := "http://www.w3.org/XML/1998/namespace".

(** [type MessageType string] and its constants. *)
Definition MessageType := string.
Definition NormalMessage : MessageType := "normal".
Definition ChatMessage : MessageType := "chat".
Definition ErrorMessage : MessageType := "error".
Definition GroupChatMessage : MessageType := "groupchat".
Definition HeadlineMessage : MessageType := "headline".

Record Message : Type := mkMessage {
  XMLName : XName;
  ID : string;
  To : Jid.JID;
  From : Jid.JID;
  Lang : string;
  Type_ : MessageType
}.

Definition set_XMLName (m : Message) (v : XName) : Message :=
  mkMessage v (ID m) (To m) (From m) (Lang m) (Type_ m).
Definition set_ID (m : Message) (v : string) : Message :=
  mkMessage (XMLName m) v (To m) (From m) (Lang m) (Type_ m).
Definition set_To (m : Message) (v : Jid.JID) : Message :=
  mkMessage (XMLName m) (ID m) v (From m) (Lang m) (Type_ m).
Definition set_From (m : Message) (v : Jid.JID) : Message :=
  mkMessage (XMLName m) (ID m) (To m) v (Lang m) (Type_ m).
Definition set_Lang (m : Message) (v : string) : Message :=
  mkMessage (XMLName m) (ID m) (To m) (From m) v (Type_ m).
Definition set_Type (m : Message) (v : MessageType) : Message :=
  mkMessage (XMLName m) (ID m) (To m) (From m) (Lang m) v.

(** [func (t *MessageType) UnmarshalXMLAttr(attr xml.Attr) error]: the type
    stored, and the error returned. *)
Definition UnmarshalXMLAttr (attr : XAttr) : MessageType * error :=
  let v := AValue attr in
  if String.eqb v "normal" then (NormalMessage, None)
  else if String.eqb v "chat" then (ChatMessage, None)
  else if String.eqb v "error" then (ErrorMessage, None)
  else if String.eqb v "groupchat" then (GroupChatMessage, None)
  else if String.eqb v "headline" then (HeadlineMessage, None)
  else (NormalMessage, None).

(** [func (t MessageType) MarshalText() ([]byte, error)]. *)
Definition MarshalText (t : MessageType) : string * error :=
  let t := if negb (String.eqb t NormalMessage) && negb (String.eqb t ChatMessage)
              && negb (String.eqb t ErrorMessage) && negb (String.eqb t GroupChatMessage)
              && negb (String.eqb t HeadlineMessage)
           then NormalMessage else t in
  (t, None).

Section Parse.

(** [jid.Parse]. *)
Variable jid_Parse : string -> Jid.JID * error.

(** The loop over [start.Attr] in [NewMessage]. *)
Fixpoint new_message_attrs (start_space : string) (v : Message) (attrs : list XAttr)
  : Message * error :=
  match attrs with
  | [] => (v, None)
  | attr :: rest =>
      let n := AName attr in
      if String.eqb (Local n) "lang" && String.eqb (Space n) ns_XML then
        new_message_attrs start_space (set_Lang v (AValue attr)) rest
      else if negb (String.eqb (Space n) "") && negb (String.eqb (Space n) start_space) then
        new_message_attrs start_space v rest
      else if String.eqb (Local n) "id" then
        new_message_attrs start_space (set_ID v (AValue attr)) rest
      else if String.eqb (Local n) "to" then
        if negb (String.eqb (AValue attr) "") then
          let '(j, err) := jid_Parse (AValue attr) in
          let v := set_To v j in
          match err with
          | Some e => (v, Some e)
          | None => new_message_attrs start_space v rest
          end
        else new_message_attrs start_space v rest
      else if String.eqb (Local n) "from" then
        if negb (String.eqb (AValue attr) "") then
          let '(j, err) := jid_Parse (AValue attr) in
          let v := set_From v j in
          match err with
          | Some e => (v, Some e)
          | None => new_message_attrs start_space v rest
          end
        else new_message_attrs start_space v rest
      else if String.eqb (Local n) "type" then
        let '(t, err) := UnmarshalXMLAttr attr in
        let v := set_Type v t in
        match err with
        | Some e => (v, Some e)
        | None => new_message_attrs start_space v rest
        end
      else new_message_attrs start_space v rest
  end.

(** [func NewMessage(start xml.StartElement) (Message, error)]. *)
Definition NewMessage (start : StartElement) : Message * error :=
  new_message_attrs (Space (SName start))
    (mkMessage (SName start) "" Jid.zero Jid.zero "" "normal") (SAttr start).

End Parse.

(** [func (msg Message) StartElement() xml.StartElement]. *)
Definition StartElement (msg : Message) : StartElement :=
  let name := mkXName (Space (XMLName msg)) "message" in
  let attr := [mkXAttr (mkXName "" "type") (Type_ msg)] in
  let attr := if negb (Jid.Equal (To msg) Jid.zero)
              then (attr ++ [mkXAttr (mkXName "" "to") (Jid.String (To msg))])%list else attr in
  let attr := if negb (Jid.Equal (From msg) Jid.zero)
              then (attr ++ [mkXAttr (mkXName "" "from") (Jid.String (From msg))])%list else attr in
  let attr := if negb (String.eqb (ID msg) "")
              then (attr ++ [mkXAttr (mkXName "" "id") (ID msg)])%list else attr in
  let attr := if negb (String.eqb (Lang msg) "")
              then (attr ++ [mkXAttr (mkXName ns_XML "lang") (Lang msg)])%list else attr in
  mkStartElement name attr.

(** [func (msg Message) Wrap(payload xml.TokenReader) xml.TokenReader]. *)
Definition Wrap (msg : Message) (payload : list Token) : list Token :=
  xmlstream_Wrap payload (StartElement msg).

(** [func (msg Message) Error(err Error) xml.TokenReader]: [errTokens] are
    the tokens of [err.TokenReader()]. *)
Definition Error (msg : Message) (errTokens : list Token) : list Token :=
  let msg := set_Type msg ErrorMessage in
  let msg := set_To (set_From msg (To msg)) (From msg) in
  Wrap msg errTokens.

End Stanza.

(** The five message types the package defines. *)
Definition message_types : list Stanza.MessageType :=
  [Stanza.NormalMessage; Stanza.ChatMessage; Stanza.ErrorMessage; Stanza.GroupChatMessage;
   Stanza.HeadlineMessage].


(** ** [strings.Fields]: the substrings between runs of white space, where
    white space is [unicode.IsSpace] on the UTF-8 decoding of the bytes.
    [space_len s] is the byte length of the white-space rune [s] starts
    with, or 0. A white-space rune never starts with a continuation byte,
    and a byte that is not a continuation byte always starts a rune in Go's
    decoding (an invalid sequence is decoded one byte at a time), so testing
    every byte position finds exactly the white-space runes. *)

Definition space_len (s : string) : nat :=
  match s with
  | EmptyString => 0
  | String c rest =>
      let b := nat_of_ascii c in
      if (Nat.eqb b 9) || (Nat.eqb b 10) || (Nat.eqb b 11) || (Nat.eqb b 12) || (Nat.eqb b 13) || (Nat.eqb b 32) then 1
      else
        match rest with
        | EmptyString => 0
        | String c2 rest2 =>
            let b2 := nat_of_ascii c2 in
            if (Nat.eqb b 194) && ((Nat.eqb b2 133) || (Nat.eqb b2 160)) then 2          (* U+0085, U+00A0 *)
            else
              match rest2 with
              | EmptyString => 0
              | String c3 _ =>
                  let b3 := nat_of_ascii c3 in
                  if (Nat.eqb b 225) && (Nat.eqb b2 154) && (Nat.eqb b3 128) then 3      (* U+1680 *)
                  else if (Nat.eqb b 226) && (Nat.eqb b2 128)
                          && (((Nat.leb 128 b3) && (Nat.leb b3 138)) || (Nat.eqb b3 168)
                              || (Nat.eqb b3 169) || (Nat.eqb b3 175)) then 3       (* U+2000-200A, U+2028, U+2029, U+202F *)
                  else if (Nat.eqb b 226) && (Nat.eqb b2 129) && (Nat.eqb b3 159) then 3 (* U+205F *)
                  else if (Nat.eqb b 227) && (Nat.eqb b2 128) && (Nat.eqb b3 128) then 3 (* U+3000 *)
                  else 0
              end
        end
  end.

(** [skip] bytes of the current white-space rune remain; [cur] is the field
    being read. *)
Fixpoint fields_aux (skip : nat) (cur : string) (s : string) : list string :=
  match s with
  | EmptyString => if String.eqb cur "" then [] else [cur]
  | String c rest =>
      match skip with
      | S k => fields_aux k cur rest
      | O =>
          match space_len s with
          | O => fields_aux 0 (cur ++ String c EmptyString) rest
          | S k => (if String.eqb cur "" then [] else [cur]) ++ fields_aux k "" rest
          end
      end
  end.

Definition Fields (s : string) : list string := fields_aux 0 "" s.

(** The bytes of [s] from offset [n] on ([s[n:]]). *)
Fixpoint str_drop (n : nat) (s : string) : string :=
  match n, s with
  | O, _ => s
  | S n', String _ r => str_drop n' r
  | S _, EmptyString => EmptyString
  end.

(** The type assertion [v.(bool)]. *)
Definition as_bool (v : option TOML) : option bool :=
  match v with Some (TBool b) => Some b | _ => None end.

(** ** The XMPP destination (pkg/destination/xmpp). *)

Module XMPP.

(** [type XMPP struct]; the session is the one [Init] opens, whose calls
    are the section variables below. *)
Record XMPP : Type := mkXMPP {
  clientJID : Jid.JID;
  clientPassword : string;
  noTLS : bool;
  noVerifyTLS : bool;
  useStartTLS : bool;
  recipientJIDs : list Jid.JID
}.

Definition set_clientJID (x : XMPP) (v : Jid.JID) : XMPP :=
  mkXMPP v (clientPassword x) (noTLS x) (noVerifyTLS x) (useStartTLS x) (recipientJIDs x).
Definition set_clientPassword (x : XMPP) (v : string) : XMPP :=
  mkXMPP (clientJID x) v (noTLS x) (noVerifyTLS x) (useStartTLS x) (recipientJIDs x).
Definition set_noTLS (x : XMPP) (v : bool) : XMPP :=
  mkXMPP (clientJID x) (clientPassword x) v (noVerifyTLS x) (useStartTLS x) (recipientJIDs x).
Definition set_noVerifyTLS (x : XMPP) (v : bool) : XMPP :=
  mkXMPP (clientJID x) (clientPassword x) (noTLS x) v (useStartTLS x) (recipientJIDs x).
Definition set_useStartTLS (x : XMPP) (v : bool) : XMPP :=
  mkXMPP (clientJID x) (clientPassword x) (noTLS x) (noVerifyTLS x) v (recipientJIDs x).
Definition set_recipientJIDs (x : XMPP) (v : list Jid.JID) : XMPP :=
  mkXMPP (clientJID x) (clientPassword x) (noTLS x) (noVerifyTLS x) (useStartTLS x) v.

(** The value registered as ["xmpp"]: [&XMPP{}]. *)
Definition empty : XMPP := mkXMPP Jid.zero "" false false false [].

(** [type Message struct { stanza.Message; Body string }]. *)
Record XMessage : Type := mkXMessage { stanza : Stanza.Message; Body : string }.

(** [defaultAuthMechanisms], by mechanism name. *)
Definition defaultAuthMechanisms : list string :=
  ["SCRAM-SHA-256-PLUS"; "SCRAM-SHA-256"; "SCRAM-SHA-1-PLUS"; "SCRAM-SHA-1"; "PLAIN"].

Record TLSConfig : Type := mkTLSConfig { ServerName : string; InsecureSkipVerify : bool }.

(** [dial.Dialer]: [TLSConfig] is [nil] unless set. *)
Record Dialer : Type := mkDialer { NoTLS : bool; TLSConfig_ : option TLSConfig }.

Inductive StreamFeature : Type :=
| BindResource
| StartTLS (cfg : TLSConfig)
| SASL (identity password : string) (mechanisms : list string).

(** [stanza.Presence{Type: stanza.AvailablePresence, To: to}]; the
    available presence type is the empty string. *)
Record Presence : Type := mkPresence { PType : string; PTo : Jid.JID }.

(** Calls made on the network during [Init]. *)
Inductive XEvent : Type :=
| XDial (d : Dialer) (addr : Jid.JID)
| XNewClientSession (j : Jid.JID) (features : list StreamFeature)
| XSend (p : Presence).

Section Session.

(** [x.session.Encode(ctx, m)]. *)
Variable Encode : XMessage -> error.

(** The stanza built for one message and one recipient. *)
Definition message_for (msg : Message) (jid : Jid.JID) : XMessage :=
  let kind := Stanza.ChatMessage in
  let '(jid, kind) := if negb (String.eqb (Jid.Resourcepart jid) "")
                      then (Jid.Bare jid, Stanza.GroupChatMessage) else (jid, kind) in
  mkXMessage (Stanza.mkMessage (mkXName "" "") "" jid Jid.zero "" kind) (Content msg).

(** The inner loop of [PushMessages]: the stanzas passed to [Encode], in
    order, and the error returned. *)
Fixpoint push_recipients (msg : Message) (rs : list Jid.JID) : list XMessage * error :=
  match rs with
  | [] => ([], None)
  | jid :: rest =>
      let m := message_for msg jid in
      match Encode m with
      | Some e => ([m], Some e)
      | None => let '(t, err) := push_recipients msg rest in (m :: t, err)
      end
  end.

Fixpoint push_all (rs : list Jid.JID) (msgs : list Message) : list XMessage * error :=
  match msgs with
  | [] => ([], None)
  | msg :: rest =>
      let '(t, err) := push_recipients msg rs in
      match err with
      | Some e => (t, Some e)
      | None => let '(t', err') := push_all rs rest in ((t ++ t')%list, err')
      end
  end.

(** [func (x *XMPP) PushMessages(ctx, messages ...*gateway.Message) error]. *)
Definition PushMessages (x : XMPP) (msgs : list Message) : list XMessage * error :=
  push_all (recipientJIDs x) msgs.

(** [dialer.Dial(ctx, "tcp", x.clientJID)]. *)
Variable Dial : Dialer -> Jid.JID -> error.
(** [xmpp.NewClientSession(ctx, x.clientJID, conn, features...)]. *)
Variable NewClientSession : Jid.JID -> list StreamFeature -> error.
(** [x.session.Send(ctx, p.Wrap(nil))]. *)
Variable Send : Presence -> error.

(** The loop sending presences to the recipients. *)
Fixpoint send_presences (rs : list Jid.JID) : list XEvent * error :=
  match rs with
  | [] => ([], None)
  | jid :: rest =>
      let p := mkPresence "" jid in
      match Send p with
      | Some e => ([XSend p], Some ("sending XMPP presence to " ++ Jid.String jid
                                   ++ " failed: " ++ e))
      | None => let '(t, err) := send_presences rest in (XSend p :: t, err)
      end
  end.

(** [func (x *XMPP) Init(ctx context.Context) error]: the network calls made
    and the error returned. *)
Definition Init (x : XMPP) : list XEvent * error :=
  if Jid.Equal (clientJID x) Jid.zero then ([], Some "empty client JID given in configuration")
  else if Nat.eqb (length (recipientJIDs x)) 0 then
    ([], Some "no recipient JIDs given in configuration")
  else
    let tlsConfig := mkTLSConfig (Jid.Domainpart (clientJID x)) (noVerifyTLS x) in
    let dialer := mkDialer (noTLS x) (if noVerifyTLS x then Some tlsConfig else None) in
    match Dial dialer (clientJID x) with
    | Some e => ([XDial dialer (clientJID x)], Some ("connection to XMPP server failed: " ++ e))
    | None =>
        let features := [BindResource] in
        let features := if useStartTLS x then (features ++ [StartTLS tlsConfig])%list
                        else features in
        let features := if negb (String.eqb (clientPassword x) "")
                        then (features ++ [SASL "" (clientPassword x) defaultAuthMechanisms])%list
                        else features in
        let ev := [XDial dialer (clientJID x); XNewClientSession (clientJID x) features] in
        match NewClientSession (clientJID x) features with
        | Some e => (ev, Some ("connection to XMPP server failed: " ++ e))
        | None =>
            let p := mkPresence "" Jid.zero in
            match Send p with
            | Some e => ((ev ++ [XSend p])%list, Some ("setting initial XMPP presence failed: " ++ e))
            | None =>
                let '(t, err) := send_presences (recipientJIDs x) in
                ((ev ++ XSend p :: t)%list, err)
            end
        end
    end.

End Session.

Section Config.

(** [jid.Parse]. *)
Variable jid_Parse : string -> Jid.JID * error.

(** The loop over [strings.Fields(v)] in [UnmarshalTOML]. *)
Fixpoint parse_recipients (rs : list Jid.JID) (fs : list string) : list Jid.JID * error :=
  match fs with
  | [] => (rs, None)
  | r :: rest =>
      let '(id, err) := jid_Parse r in
      match err with
      | Some e => (rs, Some ("failed parsing recipient JID: " ++ e))
      | None => parse_recipients (rs ++ [id])%list rest
      end
  end.

(** [func (x *XMPP) UnmarshalTOML(data any) error]. *)
Definition UnmarshalTOML (x : XMPP) (data : TOML) : XMPP * error :=
  match data with
  | TTable conf =>
      let r1 := match as_string (tbl_get conf "jid") with
                | None => (x, None)
                | Some v =>
                    let '(id, err) := jid_Parse v in
                    match err with
                    | Some e => (x, Some ("failed parsing client JID: " ++ e))
                    | None => (set_clientJID x id, None)
                    end
                end in
      match r1 with
      | (x1, Some e) => (x1, Some e)
      | (x1, None) =>
          let x2 := match as_string (tbl_get conf "password") with
                    | Some v => set_clientPassword x1 v | None => x1 end in
          let r3 := match as_string (tbl_get conf "recipients") with
                    | None => (x2, None)
                    | Some v =>
                        let '(rs, err) := parse_recipients (recipientJIDs x2) (Fields v) in
                        (set_recipientJIDs x2 rs, err)
                    end in
          match r3 with
          | (x3, Some e) => (x3, Some e)
          | (x3, None) =>
              let x4 := match as_bool (tbl_get conf "no-tls") with
                        | Some v => set_noTLS x3 v | None => x3 end in
              let x5 := match as_bool (tbl_get conf "no-verify-tls") with
                        | Some v => set_noVerifyTLS x4 v | None => x4 end in
              let x6 := match as_bool (tbl_get conf "use-starttls") with
                        | Some v => set_useStartTLS x5 v | None => x5 end in
              (x6, None)
          end
      end
  | _ => (x, None)
  end.

End Config.

End XMPP.

(** ** Sample adapters and inputs. *)

(** The handler [Service.UnmarshalTOML] leaves for a service table: a new
    HTTP server when the table has an [http] table, else [h]. *)
Definition http_of (conf : list (string * TOML)) (h : option HTTP.HTTP) : option HTTP.HTTP :=
  match as_table (tbl_get conf "http") with
  | Some v =>
      Some (HTTP.NewHTTP (match as_string (tbl_get v "host") with Some x => x | None => "" end)
                         (match as_string (tbl_get v "port") with Some x => x | None => "" end))
  | None => h
  end.

Module Samples.

Definition src_failing : Source :=
  mkSource (fun _ => ([], Some "invalid Bearer token")) (fun _ => None) None.
Definition src_empty : Source := mkSource (fun _ => ([], None)) (fun _ => None) None.
Definition src_one : Source :=
  mkSource (fun _ => ([mkMessage "firing"], None)) (fun _ => None) None.
Definition src_init_failing : Source :=
  mkSource (fun _ => ([], None)) (fun _ => Some "dial tcp: connection refused") None.
Definition dst_ok : Destination := mkDestination (fun _ _ => None) (fun _ => None) None.
Definition dst_push_failing : Destination :=
  mkDestination (fun _ _ => Some "not connected") (fun _ => None) None.

Definition req : Request := mkRequest Background [] (BodyBytes "{}").

Definition gw (p s : string) (src : option Source) (dst : option Destination)
  : Gateway.Gateway := Gateway.mkGateway p s src dst.

(** A JSON decoder for payloads of the form [{"text": ...}] given as the
    raw text: the whole body is taken as the text field. *)
Definition json_text (buf : string) : Notifications.Payload * error :=
  (Notifications.mkPayload buf, None).

(** ServeMux semantics restricted to exact duplicates. *)
Definition mux_exact (registered : list string) (p : string) : option string :=
  if existsb (String.eqb p) registered then Some "pattern conflicts with a registered pattern"
  else None.

Definition listen_ok (_ _ : string) : error := None.

Definition svc_two : Service.Service HTTP.HTTP :=
  Service.mkService [gw "/alerts" "" (Some src_one) (Some dst_ok);
                     gw "" "cf" (Some src_one) (Some dst_ok)]
                    (Some (HTTP.NewHTTP "localhost" "8080")).

Definition svc_dup : Service.Service HTTP.HTTP :=
  Service.mkService [gw "/cf" "" (Some src_one) (Some dst_ok);
                     gw "" "cf" (Some src_one) (Some dst_ok)]
                    (Some (HTTP.NewHTTP "localhost" "8080")).

Definition known_sources : Gateway.Registry Source :=
  Gateway.RegisterSource (Gateway.RegisterSource [] "grafana" src_one)
    "cloudflare-notifications" (Notifications.source json_text).
Definition known_destinations : Gateway.Registry Destination :=
  Gateway.RegisterDestination [] "xmpp" dst_ok.

(** A route entry whose source table lacks its [type] key and whose
    destination names an unregistered type. *)
Definition entry_untyped_source : list (string * TOML) :=
  [("secret", TString "1234");
   ("source", TTable [("grafana", TTable [])]);
   ("destination", TTable [("type", TString "unknown-vendor")])].

Definition entry_unknown_source : list (string * TOML) :=
  [("secret", TString "1234");
   ("source", TTable [("type", TString "unknown-vendor")]);
   ("destination", TTable [("type", TString "xmpp")])].


Definition entry_unknown_destination : list (string * TOML) :=
  [("secret", TString "1234");
   ("source", TTable [("type", TString "grafana")]);
   ("destination", TTable [("type", TString "unknown-vendor")])].


(** A service configuration whose single route names an unknown source type. *)
Definition config_unknown_source : list (string * TOML) :=
  [("http", TTable [("host", TString "localhost"); ("port", TString "8080")]);
   ("gateway", TTableArray [entry_unknown_source])].

(** An XMPP address and a [jid.Parse] that reads it back. *)
Definition alice : Jid.JID := Jid.mkJID "alice" "example.org" "phone".
Definition jid_parse (s : string) : Jid.JID * error :=
  if String.eqb s "alice@example.org/phone" then (alice, None)
  else if String.eqb s "bob@example.org" then (Jid.mkJID "bob" "example.org" "", None)
  else if String.eqb s "room@conf.example.org/bot" then
    (Jid.mkJID "room" "conf.example.org" "bot", None)
  else (Jid.zero, Some "malformed JID").

Definition stanza_alice : Stanza.Message :=
  Stanza.mkMessage (mkXName "jabber:client" "msg") "m1" alice Jid.zero "en" "headline".

Definition bob : Jid.JID := Jid.mkJID "bob" "example.org" "".
Definition room : Jid.JID := Jid.mkJID "room" "conf.example.org" "bot".

(** An XMPP destination for alice, with a direct recipient and a group chat. *)
Definition xmpp_two : XMPP.XMPP :=
  XMPP.mkXMPP alice "secret" false false false [bob; room].

(** A session that cannot write to group chats. *)
Definition encode_no_rooms (m : XMPP.XMessage) : error :=
  if String.eqb (Stanza.Type_ (XMPP.stanza m)) "groupchat" then Some "not joined" else None.
Definition send_no_rooms (p : XMPP.Presence) : error :=
  if String.eqb (Jid.Resourcepart (XMPP.PTo p)) "" then None else Some "not joined".

Definition xmpp_recipients : string := "bob@example.org
	room@conf.example.org/bot ".

(** An XMPP table as found under a gateway's [destination] key. *)
Definition xmpp_conf : list (string * TOML) :=
  [("jid", TString "alice@example.org/phone"); ("password", TString "secret");
   ("recipients", TString xmpp_recipients); ("use-starttls", TBool true)].

(** The same table with an entry that is no address. *)
Definition xmpp_conf_bad : list (string * TOML) :=
  [("jid", TString "alice@example.org/phone");
   ("recipients", TString "bob@example.org  nobody"); ("no-tls", TBool true)].

(** A complete route entry and service configurations built from it. *)
Definition entry_grafana_xmpp : list (string * TOML) :=
  [("secret", TString "1234");
   ("source", TTable [("type", TString "grafana")]);
   ("destination", TTable [("type", TString "xmpp")])].

Definition http_table : TOML := TTable [("host", TString "localhost"); ("port", TString "8080")].

Definition entry_alerts : list (string * TOML) :=
  [("path", TString "POST /alerts");
   ("source", TTable [("type", TString "grafana")]);
   ("destination", TTable [("type", TString "xmpp")])].

Definition config_two : list (string * TOML) :=
  [("http", http_table); ("gateway", TTableArray [entry_grafana_xmpp; entry_alerts])].

Definition config_second_bad : list (string * TOML) :=
  [("http", http_table); ("gateway", TTableArray [entry_grafana_xmpp; entry_unknown_source])].








(** Requests carrying the secret ["1234"] in their context. *)
Definition req_secret_none : Request :=
  mkRequest (Gateway.SetSecret Background "1234") [] (BodyBytes "Hello World").
Definition req_secret_wrong : Request :=
  mkRequest (Gateway.SetSecret Background "1234") [("Cf-Webhook-Auth", ["123"])]
    (BodyBytes "Hello World").
Definition req_secret_right : Request :=
  mkRequest (Gateway.SetSecret Background "1234") [("Cf-Webhook-Auth", ["1234"])]
    (BodyBytes "Hello World").

(** A Cloudflare Notifications route with secret ["1234"], and a request to
    it carrying that secret in its header. *)
Definition gw_cf : Gateway.Gateway :=
  gw "" "1234" (Some (Notifications.source json_text)) (Some dst_ok).
Definition req_cf_right : Request :=
  mkRequest Background [("Cf-Webhook-Auth", ["1234"])] (BodyBytes "Hello World").

(** A [toml.ParseError] text around an error raised while decoding line 1. *)
Definition decode_err (e : string) : string := "toml: line 1: " ++ e.

(** The server and gateways [main] ends with on [config_two]. *)
Definition serving : HTTP.HTTP * list Gateway.Gateway :=
  match main mux_exact listen_ok known_sources known_destinations decode_err (inl config_two)
          Background with
  | Serving h gws => (h, gws)
  | ExitFailure _ _ => (HTTP.NewHTTP "" "", [])
  end.
Definition serving_h : HTTP.HTTP := fst serving.
Definition serving_gws : list Gateway.Gateway := snd serving.

End Samples.

(** * Properties *)

(** ** Request-context secret propagation *)

Lemma ctx_eval_no_secret (e : CtxExpr) :
  set_secret_called e = false -> ctx_Value (ctx_eval e) Gateway.secretKey = None.
Proof.
  induction e as [|p IH ty n v|p IH|p IH s]; simpl; intro H; try discriminate; auto.
Qed.

(** C6: [GetSecret(SetSecret(ctx, s))] is [s] for every context and string,
    and a context on none of whose ancestors [SetSecret] was called yields
    the empty secret. *)
Theorem GetSecret_SetSecret :
  (forall (ctx : Context) (s : string), Gateway.GetSecret (Gateway.SetSecret ctx s) = s) /\
  (forall e : CtxExpr, set_secret_called e = false -> Gateway.GetSecret (ctx_eval e) = "").
Proof.
  split.
  - intros ctx s. reflexivity.
  - intros e H. unfold Gateway.GetSecret. rewrite (ctx_eval_no_secret e H). reflexivity.
Qed.

Lemma GetSecret_SetSecret_witness :
  Gateway.GetSecret (Gateway.SetSecret Background "1234") = "1234" /\
  set_secret_called (EWithValue (EWithCancel EBackground) "otherpkg.key" 0 (VString "x")) = false /\
  Gateway.GetSecret (ctx_eval (EWithValue (EWithCancel EBackground) "otherpkg.key" 0 (VString "x"))) = "".
Proof.
  destruct GetSecret_SetSecret as [H1 H2].
  split; [apply H1 | split; [reflexivity | apply H2; reflexivity]].
Defined.

(** ** Path resolution *)

Lemma Init_receiver (ctx : Context) (g : Gateway.Gateway) :
  fst (fst (Gateway.Init ctx g)) =
  if String.eqb (Gateway.path g) "" && String.eqb (Gateway.secret g) "" then g
  else if String.eqb (Gateway.path g) "" then Gateway.set_path g ("/" ++ Gateway.secret g)
  else g.
Proof.
  unfold Gateway.Init.
  destruct (String.eqb (Gateway.path g) "" && String.eqb (Gateway.secret g) ""); [reflexivity|].
  repeat match goal with
         | |- context [match ?x with _ => _ end] => destruct x
         end; reflexivity.
Qed.

(** C5: with an empty configured path and a non-empty secret, the path
    after [Init] (and the one [HandleHTTP] registers) is ["/" + secret]; a
    non-empty configured path is kept unchanged. *)
Theorem Init_resolved_path (ctx : Context) (g : Gateway.Gateway) :
  (Gateway.path g = "" -> Gateway.secret g <> "" ->
   Gateway.path (fst (fst (Gateway.Init ctx g))) = "/" ++ Gateway.secret g /\
   fst (Gateway.HandleHTTP (fst (fst (Gateway.Init ctx g)))) = "/" ++ Gateway.secret g) /\
  (Gateway.path g <> "" ->
   Gateway.path (fst (fst (Gateway.Init ctx g))) = Gateway.path g /\
   fst (Gateway.HandleHTTP (fst (fst (Gateway.Init ctx g)))) = Gateway.path g).
Proof.
  rewrite Init_receiver. split.
  - intros Hp Hs. rewrite Hp. simpl.
    destruct (String.eqb_spec (Gateway.secret g) "") as [E|E]; [contradiction|].
    simpl. split; reflexivity.
  - intro Hp. destruct (String.eqb_spec (Gateway.path g) "") as [E|E]; [contradiction|].
    simpl. split; reflexivity.
Qed.

Lemma Init_resolved_path_witness :
  Gateway.path (fst (fst (Gateway.Init Background (Samples.gw "" "1234" None None)))) = "/1234" /\
  Gateway.path (fst (fst (Gateway.Init Background
                               (Samples.gw "POST /alerts" "1234" None None)))) = "POST /alerts".
Proof.
  split.
  - apply (proj1 (Init_resolved_path Background (Samples.gw "" "1234" None None)));
      [reflexivity | discriminate].
  - apply (proj2 (Init_resolved_path Background (Samples.gw "POST /alerts" "1234" None None)));
      discriminate.
Defined.

(** ** The request handler *)

(** C1: the handler answers 400 with the parse error when [ParseHTTP]
    fails or returns no message, without calling [PushMessages]; 400 with
    the push error when [PushMessages] fails; 200 with an empty body
    otherwise. *)
Theorem HandleHTTP_responses (g : Gateway.Gateway) (src : Source) (dst : Destination)
  (r : Request) (msgs : list Message) (err : error) :
  Gateway.source g = Some src -> Gateway.destination g = Some dst ->
  src_ParseHTTP src (WithContext r (Gateway.SetSecret (req_Context r) (Gateway.secret g)))
    = (msgs, err) ->
  ((err <> None \/ msgs = []) ->
   snd (Gateway.HandleHTTP g) r =
   (Some (http_Error ("failed processing incoming request: " ++ fmt_s err) StatusBadRequest),
    [EvParseHTTP])) /\
  (forall e : string, err = None -> msgs <> [] ->
   dst_PushMessages dst (Gateway.SetSecret (req_Context r) (Gateway.secret g)) msgs = Some e ->
   snd (Gateway.HandleHTTP g) r =
   (Some (http_Error ("failed pushing notification messages: " ++ e) StatusBadRequest),
    [EvParseHTTP; EvPushMessages msgs])) /\
  (err = None -> msgs <> [] ->
   dst_PushMessages dst (Gateway.SetSecret (req_Context r) (Gateway.secret g)) msgs = None ->
   snd (Gateway.HandleHTTP g) r = (Some response_default, [EvParseHTTP; EvPushMessages msgs])).
Proof.
  intros Hs Hd Hp. unfold Gateway.HandleHTTP, Gateway.handler. simpl snd.
  rewrite Hs, Hp, Hd. split; [|split].
  - intros [Herr|Hm].
    + destruct err as [m|]; [reflexivity | congruence].
    + subst msgs. destruct err; reflexivity.
  - intros e He Hm Hpush. subst err.
    destruct msgs as [|m ms]; [congruence|]. simpl. rewrite Hpush. reflexivity.
  - intros He Hm Hpush. subst err.
    destruct msgs as [|m ms]; [congruence|]. simpl. rewrite Hpush. reflexivity.
Qed.

Lemma HandleHTTP_responses_witness :
  snd (Gateway.HandleHTTP (Samples.gw "/alerts" "1234" (Some Samples.src_failing)
                             (Some Samples.dst_ok))) Samples.req =
  (Some (http_Error "failed processing incoming request: invalid Bearer token" StatusBadRequest),
   [EvParseHTTP]) /\
  snd (Gateway.HandleHTTP (Samples.gw "/alerts" "1234" (Some Samples.src_one)
                             (Some Samples.dst_push_failing))) Samples.req =
  (Some (http_Error "failed pushing notification messages: not connected" StatusBadRequest),
   [EvParseHTTP; EvPushMessages [mkMessage "firing"]]) /\
  snd (Gateway.HandleHTTP (Samples.gw "/alerts" "1234" (Some Samples.src_one)
                             (Some Samples.dst_ok))) Samples.req =
  (Some response_default, [EvParseHTTP; EvPushMessages [mkMessage "firing"]]).
Proof.
  split; [|split].
  - apply (proj1 (HandleHTTP_responses (Samples.gw "/alerts" "1234" (Some Samples.src_failing)
                    (Some Samples.dst_ok)) Samples.src_failing Samples.dst_ok Samples.req []
                    (Some "invalid Bearer token") eq_refl eq_refl eq_refl)).
    left; discriminate.
  - apply (proj1 (proj2 (HandleHTTP_responses (Samples.gw "/alerts" "1234"
                    (Some Samples.src_one) (Some Samples.dst_push_failing)) Samples.src_one
                    Samples.dst_push_failing Samples.req [mkMessage "firing"] None
                    eq_refl eq_refl eq_refl))); [reflexivity | discriminate | reflexivity].
  - apply (proj2 (proj2 (HandleHTTP_responses (Samples.gw "/alerts" "1234"
                    (Some Samples.src_one) (Some Samples.dst_ok)) Samples.src_one
                    Samples.dst_ok Samples.req [mkMessage "firing"] None
                    eq_refl eq_refl eq_refl))); [reflexivity | discriminate | reflexivity].
Defined.

(** C9: when [ParseHTTP] returns no message and a nil error, the 400 body
    formats the nil error: it is the text
    ["failed processing incoming request: %!s(<nil>)"], terminated by the
    newline [http.Error] writes after it. *)
Theorem HandleHTTP_empty_nil_body (g : Gateway.Gateway) (src : Source) (r : Request) :
  Gateway.source g = Some src ->
  src_ParseHTTP src (WithContext r (Gateway.SetSecret (req_Context r) (Gateway.secret g)))
    = ([], None) ->
  snd (Gateway.HandleHTTP g) r =
  (Some (mkResponse 400 ("failed processing incoming request: %!s(<nil>)" ++ nl)),
   [EvParseHTTP]).
Proof.
  intros Hs Hp. unfold Gateway.HandleHTTP, Gateway.handler. simpl snd.
  rewrite Hs, Hp. reflexivity.
Qed.

Lemma HandleHTTP_empty_nil_body_witness :
  snd (Gateway.HandleHTTP (Samples.gw "/alerts" "" (Some Samples.src_empty)
                             (Some Samples.dst_ok))) Samples.req =
  (Some (mkResponse 400 ("failed processing incoming request: %!s(<nil>)" ++ nl)),
   [EvParseHTTP]).
Proof.
  apply (HandleHTTP_empty_nil_body _ Samples.src_empty); reflexivity.
Defined.

(** ** The Cloudflare Notifications source *)

(** C8: when the request context carries an empty secret, [ParseHTTP]
    does not look at the headers (its result is the same for every header
    map) and never returns one of its authentication errors. *)
Theorem ParseHTTP_no_secret_no_auth (json_Unmarshal : string -> Notifications.Payload * error)
  (r : Request) (h : Header) :
  Gateway.GetSecret (req_Context r) = "" ->
  Notifications.ParseHTTP json_Unmarshal (mkRequest (req_ctx r) h (req_body r))
    = Notifications.ParseHTTP json_Unmarshal r /\
  match snd (Notifications.ParseHTTP json_Unmarshal r) with
  | Some e => Notifications.is_auth_error e = false
  | None => True
  end.
Proof.
  intro H. unfold req_Context in H. unfold Notifications.ParseHTTP, req_Context. simpl.
  rewrite H. simpl. split; [reflexivity|].
  destruct (io_ReadAll (req_body r)) as [buf [e|]]; [reflexivity|].
  destruct (json_Unmarshal buf) as [payload [e|]]; [reflexivity|].
  destruct (negb (String.eqb (Notifications.Text payload) "")); exact I || reflexivity.
Qed.

Lemma ParseHTTP_no_secret_no_auth_witness :
  Notifications.ParseHTTP Samples.json_text
    (mkRequest Background [("Cf-Webhook-Auth", ["wrong"])] (BodyBytes "Hello World"))
  = Notifications.ParseHTTP Samples.json_text (mkRequest Background [] (BodyBytes "Hello World"))
  /\ match snd (Notifications.ParseHTTP Samples.json_text
                  (mkRequest Background [] (BodyBytes "Hello World"))) with
     | Some e => Notifications.is_auth_error e = false
     | None => True
     end.
Proof.
  apply (ParseHTTP_no_secret_no_auth Samples.json_text
           (mkRequest Background [] (BodyBytes "Hello World")) [("Cf-Webhook-Auth", ["wrong"])]).
  reflexivity.
Defined.

(** With a secret in the context, a wrong header is refused. *)
Example ParseHTTP_wrong_token :
  Notifications.ParseHTTP Samples.json_text
    (mkRequest (Gateway.SetSecret Background "1234") [("Cf-Webhook-Auth", ["123"])]
       (BodyBytes "Hello World"))
  = ([], Some "invalid authentication token").
Proof. reflexivity. Qed.

(** ** Gateway initialization *)

(** C3 (counterexample): a gateway whose destination is unset still has its
    source initialized, and when that fails the error is the source's, not a
    configuration error about the missing destination. *)
Lemma Init_destination_unset_counterexample :
  snd (fst (Gateway.Init Background
              (Samples.gw "/alerts" "1234" (Some Samples.src_init_failing) None)))
    = [EvSourceInit] /\
  snd (Gateway.Init Background
         (Samples.gw "/alerts" "1234" (Some Samples.src_init_failing) None))
    = Some "failed initializing source: dial tcp: connection refused" /\
  snd (Gateway.Init Background
         (Samples.gw "/alerts" "1234" (Some Samples.src_init_failing) None))
    <> Some "no destination configuration found".
Proof. split; [reflexivity | split; [reflexivity | discriminate]]. Qed.

Lemma path_secret_not_both_empty (g : Gateway.Gateway) :
  Gateway.path g <> "" \/ Gateway.secret g <> "" ->
  String.eqb (Gateway.path g) "" && String.eqb (Gateway.secret g) "" = false.
Proof.
  intros [H|H]; apply andb_false_iff;
    [left | right]; apply String.eqb_neq; exact H.
Qed.

Lemma Init_after_path (ctx : Context) (g : Gateway.Gateway) :
  Gateway.path g <> "" \/ Gateway.secret g <> "" ->
  snd (Gateway.Init ctx g) =
    match Gateway.source g with
    | None => Some "no source configuration found"
    | Some src =>
        match src_Init src ctx with
        | Some e => Some ("failed initializing source: " ++ e)
        | None =>
            match Gateway.destination g with
            | None => Some "no destination configuration found"
            | Some dst =>
                match dst_Init dst ctx with
                | Some e => Some ("failed initializing destination: " ++ e)
                | None => None
                end
            end
        end
    end /\
  snd (fst (Gateway.Init ctx g)) =
    match Gateway.source g with
    | None => []
    | Some src =>
        match src_Init src ctx with
        | Some _ => [EvSourceInit]
        | None =>
            match Gateway.destination g with
            | None => [EvSourceInit]
            | Some _ => [EvSourceInit; EvDestinationInit]
            end
        end
    end.
Proof.
  intros H. unfold Gateway.Init. rewrite (path_secret_not_both_empty g H).
  destruct (String.eqb (Gateway.path g) ""); simpl;
    destruct (Gateway.source g) as [src|]; try (split; reflexivity);
    destruct (src_Init src ctx); try (split; reflexivity);
    destruct (Gateway.destination g) as [dst|]; try (split; reflexivity);
    destruct (dst_Init dst ctx); split; reflexivity.
Qed.

(** C3 (amended): [Init] fails with a configuration error when path and
    secret are both empty, and otherwise sets an empty path to
    ["/" + secret]. It then handles the source: unset, a configuration error
    with no adapter called; set, [source.Init] is called and its error is
    returned annotated as a source failure. Only after the source has
    initialized is the destination handled the same way: unset, a
    configuration error (after [source.Init]); set, [destination.Init] is
    called and its error annotated as a destination failure. *)
Theorem Init_stages (ctx : Context) (g : Gateway.Gateway) :
  (Gateway.path g = "" -> Gateway.secret g = "" ->
   Gateway.Init ctx g = (g, [], Some "no path or secret found in gateway configuration")) /\
  (Gateway.path g = "" -> Gateway.secret g <> "" ->
   Gateway.path (fst (fst (Gateway.Init ctx g))) = "/" ++ Gateway.secret g) /\
  (Gateway.path g <> "" \/ Gateway.secret g <> "" ->
   (Gateway.source g = None ->
    snd (fst (Gateway.Init ctx g)) = [] /\
    snd (Gateway.Init ctx g) = Some "no source configuration found") /\
   (forall (src : Source) (e : string),
    Gateway.source g = Some src -> src_Init src ctx = Some e ->
    snd (fst (Gateway.Init ctx g)) = [EvSourceInit] /\
    snd (Gateway.Init ctx g) = Some ("failed initializing source: " ++ e)) /\
   (forall src : Source,
    Gateway.source g = Some src -> src_Init src ctx = None -> Gateway.destination g = None ->
    snd (fst (Gateway.Init ctx g)) = [EvSourceInit] /\
    snd (Gateway.Init ctx g) = Some "no destination configuration found") /\
   (forall (src : Source) (dst : Destination) (e : string),
    Gateway.source g = Some src -> src_Init src ctx = None ->
    Gateway.destination g = Some dst -> dst_Init dst ctx = Some e ->
    snd (fst (Gateway.Init ctx g)) = [EvSourceInit; EvDestinationInit] /\
    snd (Gateway.Init ctx g) = Some ("failed initializing destination: " ++ e)) /\
   (forall (src : Source) (dst : Destination),
    Gateway.source g = Some src -> src_Init src ctx = None ->
    Gateway.destination g = Some dst -> dst_Init dst ctx = None ->
    snd (fst (Gateway.Init ctx g)) = [EvSourceInit; EvDestinationInit] /\
    snd (Gateway.Init ctx g) = None)).
Proof.
  split; [|split].
  - intros Hp Hs. unfold Gateway.Init. rewrite Hp, Hs. reflexivity.
  - intros Hp Hs. rewrite Init_receiver, Hp. simpl.
    destruct (String.eqb_spec (Gateway.secret g) "") as [E|E]; [contradiction | reflexivity].
  - intro H. destruct (Init_after_path ctx g H) as [Herr Hev].
    rewrite Herr, Hev. repeat split; intros; subst;
      repeat match goal with
             | Hx : ?a = _ |- context [?a] => rewrite Hx
             end; reflexivity.
Qed.

Lemma Init_stages_witness :
  Gateway.Init Background (Samples.gw "" "" None None)
    = (Samples.gw "" "" None None, [], Some "no path or secret found in gateway configuration") /\
  Gateway.path (fst (fst (Gateway.Init Background (Samples.gw "" "1234" None None)))) = "/1234" /\
  snd (Gateway.Init Background (Samples.gw "/a" "" None (Some Samples.dst_ok)))
    = Some "no source configuration found" /\
  snd (Gateway.Init Background (Samples.gw "/a" "" (Some Samples.src_init_failing) None))
    = Some "failed initializing source: dial tcp: connection refused" /\
  snd (Gateway.Init Background (Samples.gw "/a" "" (Some Samples.src_one) None))
    = Some "no destination configuration found" /\
  snd (Gateway.Init Background (Samples.gw "/a" "" (Some Samples.src_one) (Some Samples.dst_ok)))
    = None.
Proof.
  assert (Ha : Gateway.path (Samples.gw "/a" "" None None) <> ""
               \/ Gateway.secret (Samples.gw "/a" "" None None) <> "")
    by (left; discriminate).
  split; [|split; [|split; [|split; [|split]]]].
  - apply (proj1 (Init_stages Background (Samples.gw "" "" None None))); reflexivity.
  - apply (proj1 (proj2 (Init_stages Background (Samples.gw "" "1234" None None))));
      [reflexivity | discriminate].
  - destruct (proj2 (proj2 (Init_stages Background
                (Samples.gw "/a" "" None (Some Samples.dst_ok)))) Ha) as [H _].
    exact (proj2 (H eq_refl)).
  - destruct (proj2 (proj2 (Init_stages Background
                (Samples.gw "/a" "" (Some Samples.src_init_failing) None))) Ha) as [_ [H _]].
    exact (proj2 (H Samples.src_init_failing _ eq_refl eq_refl)).
  - destruct (proj2 (proj2 (Init_stages Background
                (Samples.gw "/a" "" (Some Samples.src_one) None))) Ha) as [_ [_ [H _]]].
    exact (proj2 (H Samples.src_one eq_refl eq_refl eq_refl)).
  - destruct (proj2 (proj2 (Init_stages Background
                (Samples.gw "/a" "" (Some Samples.src_one) (Some Samples.dst_ok)))) Ha)
      as [_ [_ [_ [_ H]]]].
    exact (proj2 (H Samples.src_one Samples.dst_ok eq_refl eq_refl eq_refl eq_refl)).
Defined.

(** ** Service initialization *)

Lemma Init_ok_path (ctx : Context) (g : Gateway.Gateway) :
  snd (Gateway.Init ctx g) = None ->
  Gateway.path (fst (fst (Gateway.Init ctx g))) = Gateway.resolved_path g.
Proof.
  intro H. rewrite Init_receiver. unfold Gateway.resolved_path.
  destruct (String.eqb (Gateway.path g) "") eqn:Ep;
    destruct (String.eqb (Gateway.secret g) "") eqn:Es; simpl; try reflexivity.
  unfold Gateway.Init in H. rewrite Ep, Es in H. discriminate.
Qed.

Section ServiceProofs.

Variable HS : Type.
Variable Handle : HS -> string -> HandlerFunc -> HS * error.
Variable HInit : HS -> Context -> error.
Variable ctx : Context.

(** The loop over the routes stops at the first route whose [Init] or
    registration fails; before it, every route initialized and was
    registered under its resolved path. *)
Lemma init_gateways_trace (gws : list Gateway.Gateway) :
  forall i hs hs' gws' ev err,
  Service.init_gateways HS Handle ctx i hs gws = (hs', gws', ev, err) ->
  (err = None /\ ev = route_trace i gws /\
   Forall (fun g => snd (Gateway.Init ctx g) = None) gws) \/
  (exists k g, nth_error gws k = Some g /\
   (forall j gj, j < k -> nth_error gws j = Some gj -> snd (Gateway.Init ctx gj) = None) /\
   ((exists e, snd (Gateway.Init ctx g) = Some e /\
      ev = (route_trace i (firstn k gws) ++ [Service.SGatewayInit (i + k)])%list /\
      err = Some ("failed initializing gateway: " ++ e)) \/
    (snd (Gateway.Init ctx g) = None /\ ev = route_trace i (firstn (S k) gws) /\
     exists e, err = Some ("failed setting up request handler for gateway: " ++ e)))).
Proof.
  induction gws as [|g rest IH]; intros i hs hs' gws' ev err Heq; simpl in Heq.
  - inversion Heq; subst. left. repeat split. constructor.
  - destruct (Gateway.Init ctx g) as [[g' evs] [e|]] eqn:Hi.
    + inversion Heq; subst. right. exists 0, g. split; [reflexivity|]. split.
      * intros j gj Hj. lia.
      * left. exists e. rewrite Hi. rewrite Nat.add_0_r. repeat split.
    + assert (Hp : Gateway.path g' = Gateway.resolved_path g).
      { replace g' with (fst (fst (Gateway.Init ctx g))) by (rewrite Hi; reflexivity).
        apply Init_ok_path. rewrite Hi. reflexivity. }
      simpl in Heq.
      destruct (Handle hs (Gateway.path g') (Gateway.handler g')) as [hs1 [e|]] eqn:Hh.
      * inversion Heq; subst. right. exists 0, g. split; [reflexivity|]. split.
        -- intros j gj Hj. lia.
        -- right. rewrite Hi, Hp. split; [reflexivity|]. split; [reflexivity|].
           exists e. reflexivity.
      * destruct (Service.init_gateways HS Handle ctx (S i) hs1 rest)
          as [[[hs2 rest'] ev'] err'] eqn:Hr.
        inversion Heq; subst. rewrite Hp.
        destruct (IH (S i) hs1 hs' rest' ev' err Hr) as
          [[E1 [E2 E3]] | [k [gk [Hk [Hbefore Hcase]]]]].
        -- left. subst. repeat split. constructor; [rewrite Hi; reflexivity | exact E3].
        -- right. exists (S k), gk. split; [exact Hk|]. split.
           ++ intros j gj Hj Hnj. destruct j as [|j].
              ** simpl in Hnj. inversion Hnj; subst. rewrite Hi. reflexivity.
              ** apply (Hbefore j gj); [lia | exact Hnj].
           ++ replace (i + S k) with (S i + k) by lia.
              destruct Hcase as [[e [He [Hev Herr]]] | [He [Hev Herr]]].
              ** left. exists e. subst. repeat split. exact He.
              ** right. subst. repeat split; [exact He | exact Herr].
Qed.

End ServiceProofs.

Section ServiceInitProofs.

Variable HS : Type.
Variable Handle : HS -> string -> HandlerFunc -> HS * error.
Variable HInit : HS -> Context -> error.
Variable ctx : Context.

(** C2: [Service.Init] fails with a configuration error, calling nothing,
    when no handler is set or no route is configured. Otherwise it first
    registers the health-check path; it then takes the routes in order,
    calling each route's [Init] and registering its resolved path only when
    that [Init] succeeded; the first route whose [Init] fails stops the
    start with that route's error wrapped; and the handler's [Init] is
    called last, only when every route was initialized and registered. *)
Theorem Service_Init_order (s : Service.Service HS) (hs' : option HS)
  (gws' : list Gateway.Gateway) (ev : list Service.SEvent) (err : error) :
  Service.Init HS Handle HInit ctx s = (hs', gws', ev, err) ->
  (Service.handler s = None ->
   ev = [] /\ err = Some "no request handler configuration found") /\
  (Service.handler s <> None -> Service.gateway s = [] ->
   ev = [] /\ err = Some "no gateway configuration found") /\
  (Service.handler s <> None -> Service.gateway s <> [] ->
   (exists e, ev = [Service.SHandle Service.health_path] /\
     err = Some ("failed setting up request handler for health-checks: " ++ e)) \/
   (ev = (Service.SHandle Service.health_path :: route_trace 0 (Service.gateway s)
           ++ [Service.SHandlerInit])%list /\
    Forall (fun g => snd (Gateway.Init ctx g) = None) (Service.gateway s) /\
    (err = None \/ exists e, err = Some ("failed initializing request handler: " ++ e))) \/
   (exists k g, nth_error (Service.gateway s) k = Some g /\
    (forall j gj, j < k -> nth_error (Service.gateway s) j = Some gj ->
                  snd (Gateway.Init ctx gj) = None) /\
    ((exists e, snd (Gateway.Init ctx g) = Some e /\
       ev = (Service.SHandle Service.health_path :: route_trace 0 (firstn k (Service.gateway s))
             ++ [Service.SGatewayInit k])%list /\
       err = Some ("failed initializing gateway: " ++ e)) \/
     (snd (Gateway.Init ctx g) = None /\
      ev = Service.SHandle Service.health_path :: route_trace 0 (firstn (S k) (Service.gateway s)) /\
      exists e, err = Some ("failed setting up request handler for gateway: " ++ e))))).
Proof.
  intro Heq. unfold Service.Init in Heq.
  destruct (Service.handler s) as [hs|] eqn:Hh.
  - split; [intro; discriminate|].
    destruct (Service.gateway s) as [|g0 rest] eqn:Hg.
    + inversion Heq; subst. split; [intros _ _; split; reflexivity|].
      intros _ Hne. congruence.
    + split; [intros _ Hne; discriminate|]. intros _ _.
      rewrite <- Hg in Heq |- *.
      destruct (Handle hs Service.health_path Service.health_handler) as [hs1 [e|]] eqn:H1.
      * left. inversion Heq; subst. exists e. split; reflexivity.
      * destruct (Service.init_gateways HS Handle ctx 0 hs1 (Service.gateway s))
          as [[[hs2 gws2] ev2] e2] eqn:H2.
        destruct (init_gateways_trace HS Handle ctx (Service.gateway s) 0 hs1 hs2 gws2 ev2 e2 H2)
          as [[E1 [E2 E3]] | [k [g [Hk [Hbefore Hcase]]]]].
        -- subst e2. right. left.
           destruct (HInit hs2 ctx) as [e|]; inversion Heq; subst;
             (split; [reflexivity | split; [exact E3|]]); [right; exists e|left]; reflexivity.
        -- right. right. exists k, g. split; [exact Hk|]. split; [exact Hbefore|].
           destruct Hcase as [[e [He [Hev Herr]]] | [He [Hev [e Herr]]]].
           ++ subst e2. inversion Heq; subst. left. exists e. repeat split. exact He.
           ++ subst e2. inversion Heq; subst. right. split; [exact He|]. split; [reflexivity|].
              exists e. reflexivity.
  - inversion Heq; subst. split; [intros _; split; reflexivity|].
    split; intros Hne; contradiction.
Qed.

End ServiceInitProofs.

Lemma Service_Init_order_witness :
  snd (fst (Service.Init HTTP.HTTP (HTTP.Handle Samples.mux_exact)
              (HTTP.Init Samples.listen_ok) Background Samples.svc_two))
  = (Service.SHandle Service.health_path :: route_trace 0 (Service.gateway Samples.svc_two)
     ++ [Service.SHandlerInit])%list.
Proof.
  assert (E : Service.Init HTTP.HTTP (HTTP.Handle Samples.mux_exact)
                (HTTP.Init Samples.listen_ok) Background Samples.svc_two
              = (fst (fst (fst (Service.Init HTTP.HTTP (HTTP.Handle Samples.mux_exact)
                   (HTTP.Init Samples.listen_ok) Background Samples.svc_two))),
                 snd (fst (fst (Service.Init HTTP.HTTP (HTTP.Handle Samples.mux_exact)
                   (HTTP.Init Samples.listen_ok) Background Samples.svc_two))),
                 snd (fst (Service.Init HTTP.HTTP (HTTP.Handle Samples.mux_exact)
                   (HTTP.Init Samples.listen_ok) Background Samples.svc_two)),
                 snd (Service.Init HTTP.HTTP (HTTP.Handle Samples.mux_exact)
                   (HTTP.Init Samples.listen_ok) Background Samples.svc_two)))
    by reflexivity.
  destruct (proj2 (proj2 (Service_Init_order HTTP.HTTP (HTTP.Handle Samples.mux_exact)
              (HTTP.Init Samples.listen_ok) Background Samples.svc_two _ _ _ _ E))
              ltac:(discriminate) ltac:(discriminate))
    as [[e [Hev _]] | [[Hev _] | [k [g [_ [_ [[e [_ [_ Herr]]] | [_ [_ [e Herr]]]]]]]]]].
  - vm_compute in Hev. discriminate.
  - exact Hev.
  - vm_compute in Herr. discriminate.
  - vm_compute in Herr. discriminate.
Defined.

(** ** Unique paths with the HTTP transport *)

Section UniquePaths.

Variable mux_panic : list string -> string -> option string.
Variable net_Listen : string -> string -> error.
Variable ctx : Context.

(** [http.ServeMux] panics when a pattern is registered twice (Go 1.22 and
    later: the pattern conflicts with itself; before: multiple
    registrations). *)
Hypothesis mux_panic_duplicate :
  forall (registered : list string) (p : string), In p registered -> mux_panic registered p <> None.

Lemma HTTP_Handle_fresh (h h' : HTTP.HTTP) (p : string) (f : HandlerFunc) :
  HTTP.Handle mux_panic h p f = (h', None) ->
  ~ In p (map fst (HTTP.mux h)) /\ HTTP.mux h' = (p, f) :: HTTP.mux h.
Proof.
  unfold HTTP.Handle. destruct (mux_panic (map fst (HTTP.mux h)) p) as [m|] eqn:Hm;
    intro E; inversion E; subst.
  split; [|reflexivity]. intro Hin. exact (mux_panic_duplicate _ _ Hin Hm).
Qed.

End UniquePaths.

Section UniqueRoutes.

(** A transport whose successful registration refuses a pattern already
    registered and records the new one. *)
Variable Handle : HTTP.HTTP -> string -> HandlerFunc -> HTTP.HTTP * error.
Hypothesis Handle_fresh : forall h h' p f, Handle h p f = (h', None) ->
  ~ In p (map fst (HTTP.mux h)) /\ HTTP.mux h' = (p, f) :: HTTP.mux h.
Variable ctx : Context.

Lemma init_gateways_unique (gws : list Gateway.Gateway) :
  forall i h h' gws' ev,
  Service.init_gateways HTTP.HTTP Handle ctx i h gws = (h', gws', ev, None) ->
  NoDup (map Gateway.resolved_path gws) /\
  (forall g, In g gws -> ~ In (Gateway.resolved_path g) (map fst (HTTP.mux h))) /\
  map Gateway.path gws' = map Gateway.resolved_path gws.
Proof.
  induction gws as [|g rest IH]; intros i h h' gws' ev Heq; simpl in Heq.
  - inversion Heq; subst. split; [constructor|]. split; [intros g []|reflexivity].
  - destruct (Gateway.Init ctx g) as [[g' evs] [e|]] eqn:Hi; [discriminate|].
    assert (Hp : Gateway.path g' = Gateway.resolved_path g).
    { replace g' with (fst (fst (Gateway.Init ctx g))) by (rewrite Hi; reflexivity).
      apply Init_ok_path. rewrite Hi. reflexivity. }
    simpl in Heq.
    destruct (Handle h (Gateway.path g') (Gateway.handler g')) as [h1 [m|]] eqn:Hh;
      [discriminate|].
    destruct (Handle_fresh _ _ _ _ Hh) as [Hnot Hmux].
    destruct (Service.init_gateways HTTP.HTTP Handle ctx (S i) h1 rest)
      as [[[h2 rest'] ev'] err'] eqn:Hr.
    inversion Heq; subst.
    destruct (IH _ _ _ _ _ Hr) as [Hnd [Hfresh Hpaths]].
    rewrite Hmux in Hfresh. rewrite Hp in Hnot.
    simpl in Hfresh. split; [|split].
    + simpl. constructor; [|exact Hnd].
      intro Hin. apply in_map_iff in Hin as [g2 [Heq2 Hin2]].
      apply (Hfresh g2 Hin2). left. rewrite Hp. symmetry. exact Heq2.
    + intros g0 [<-|Hin0]; [exact Hnot|].
      intro Hin. apply (Hfresh g0 Hin0). right. exact Hin.
    + simpl. rewrite Hp, Hpaths. reflexivity.
Qed.

End UniqueRoutes.

Section UniquePathsInit.

Variable mux_panic : list string -> string -> option string.
Variable net_Listen : string -> string -> error.
Variable ctx : Context.
Hypothesis mux_panic_duplicate :
  forall (registered : list string) (p : string), In p registered -> mux_panic registered p <> None.

(** C4: with the HTTP transport, a successful [Service.Init] implies that
    the resolved paths of its routes are pairwise distinct (so two routes
    resolving to the same path make [Init] fail), that none of them is the
    health-check path, and that the paths the routes hold after [Init] are
    these resolved paths. *)
Theorem Service_Init_unique_paths (s : Service.Service HTTP.HTTP) (h' : option HTTP.HTTP)
  (gws' : list Gateway.Gateway) (ev : list Service.SEvent) :
  Service.Init HTTP.HTTP (HTTP.Handle mux_panic) (HTTP.Init net_Listen) ctx s
    = (h', gws', ev, None) ->
  NoDup (map Gateway.resolved_path (Service.gateway s)) /\
  ~ In Service.health_path (map Gateway.resolved_path (Service.gateway s)) /\
  map Gateway.path gws' = map Gateway.resolved_path (Service.gateway s).
Proof.
  intro Heq. unfold Service.Init in Heq.
  destruct (Service.handler s) as [h|]; [|discriminate].
  destruct (Service.gateway s) as [|g0 rest] eqn:Hg; [discriminate|].
  rewrite <- Hg in Heq |- *.
  destruct (HTTP.Handle mux_panic h Service.health_path Service.health_handler)
    as [h1 [m|]] eqn:Hh; [discriminate|].
  destruct (HTTP_Handle_fresh mux_panic mux_panic_duplicate _ _ _ _ Hh) as [Hnot Hmux].
  destruct (Service.init_gateways HTTP.HTTP (HTTP.Handle mux_panic) ctx 0 h1
              (Service.gateway s)) as [[[h2 gws2] ev2] e2] eqn:H2.
  destruct e2 as [e|]; [discriminate|].
  destruct (HTTP.Init net_Listen h2 ctx); [discriminate|].
  inversion Heq; subst.
  destruct (init_gateways_unique (HTTP.Handle mux_panic)
              (HTTP_Handle_fresh mux_panic mux_panic_duplicate) ctx _ _ _ _ _ _ H2)
    as [Hnd [Hfresh Hpaths]].
  rewrite Hmux in Hfresh.
  split; [exact Hnd|]. split; [|exact Hpaths].
  intro Hin. apply in_map_iff in Hin as [g [Heq2 Hin2]].
  apply (Hfresh g Hin2). simpl. left. symmetry. exact Heq2.
Qed.

End UniquePathsInit.

Lemma mux_exact_duplicate (registered : list string) (p : string) :
  In p registered -> Samples.mux_exact registered p <> None.
Proof.
  intro H. unfold Samples.mux_exact.
  assert (E : existsb (String.eqb p) registered = true).
  { apply existsb_exists. exists p. split; [exact H | apply String.eqb_refl]. }
  rewrite E. discriminate.
Qed.

Lemma Service_Init_unique_paths_witness :
  NoDup (map Gateway.resolved_path (Service.gateway Samples.svc_two)) /\
  ~ In Service.health_path (map Gateway.resolved_path (Service.gateway Samples.svc_two)) /\
  map Gateway.path (snd (fst (fst (Service.Init HTTP.HTTP (HTTP.Handle Samples.mux_exact)
                                     (HTTP.Init Samples.listen_ok) Background Samples.svc_two))))
  = map Gateway.resolved_path (Service.gateway Samples.svc_two).
Proof.
  apply (Service_Init_unique_paths Samples.mux_exact Samples.listen_ok Background
           mux_exact_duplicate Samples.svc_two
           (fst (fst (fst (Service.Init HTTP.HTTP (HTTP.Handle Samples.mux_exact)
                             (HTTP.Init Samples.listen_ok) Background Samples.svc_two))))
           _
           (snd (fst (Service.Init HTTP.HTTP (HTTP.Handle Samples.mux_exact)
                        (HTTP.Init Samples.listen_ok) Background Samples.svc_two)))).
  vm_compute. reflexivity.
Defined.

(** Two routes resolving to ["/cf"] make the start fail. *)
Example Service_Init_duplicate_fails :
  snd (Service.Init HTTP.HTTP (HTTP.Handle Samples.mux_exact) (HTTP.Init Samples.listen_ok)
         Background Samples.svc_dup)
  = Some "failed setting up request handler for gateway: pattern conflicts with a registered pattern".
Proof. reflexivity. Qed.

(** ** Configuration binding *)

Ltac destruct_matches :=
  repeat match goal with
         | |- context [match ?x with _ => _ end] => destruct x
         end.

Lemma bind_source_err (ks : Gateway.Registry Source) (v : option TOML) (g1 g2 : Gateway.Gateway) :
  snd (Gateway.bind_source ks v g1) = snd (Gateway.bind_source ks v g2).
Proof. unfold Gateway.bind_source. destruct_matches; reflexivity. Qed.

Lemma bind_destination_err (kd : Gateway.Registry Destination) (v : option TOML)
  (g1 g2 : Gateway.Gateway) :
  snd (Gateway.bind_destination kd v g1) = snd (Gateway.bind_destination kd v g2).
Proof. unfold Gateway.bind_destination. destruct_matches; reflexivity. Qed.





Lemma bind_gateways_fails (ks : Gateway.Registry Source) (kd : Gateway.Registry Destination)
  (entries : list (list (string * TOML))) :
  forall (s : Service.Service HTTP.HTTP) e,
  In e entries -> snd (Gateway.UnmarshalTOML ks kd (TTable e) Gateway.New) <> None ->
  snd (Service.bind_gateways ks kd entries s) <> None.
Proof.
  induction entries as [|e0 rest IH]; intros s e Hin Herr; [destruct Hin|].
  cbn [Service.bind_gateways].
  destruct (Gateway.UnmarshalTOML ks kd (TTable e0) Gateway.New) as [g [m|]] eqn:He.
  - intro H. discriminate.
  - destruct Hin as [<-|Hin].
    + rewrite He in Herr. contradiction.
    + exact (IH _ e Hin Herr).
Qed.

(** C7 (counterexample): a route entry whose destination type is unknown,
    but whose source table lacks its [type] key, fails with the source
    error, which does not name the unknown destination type. *)
Lemma UnmarshalTOML_unknown_type_counterexample :
  snd (Gateway.UnmarshalTOML Samples.known_sources Samples.known_destinations
         (TTable Samples.entry_untyped_source) Gateway.New)
    = Some "empty or missing source type in gateway configuration" /\
  mentions "empty or missing source type in gateway configuration" "unknown-vendor" = false.
Proof. split; reflexivity. Qed.

Lemma UnmarshalTOML_split (ks : Gateway.Registry Source) (kd : Gateway.Registry Destination)
  (conf : list (string * TOML)) (g : Gateway.Gateway) :
  let g1 := match as_string (tbl_get conf "path") with
            | Some v => Gateway.set_path
                          (match as_string (tbl_get conf "secret") with
                           | Some w => Gateway.set_secret g w | None => g end) v
            | None => match as_string (tbl_get conf "secret") with
                      | Some w => Gateway.set_secret g w | None => g end
            end in
  Gateway.UnmarshalTOML ks kd (TTable conf) g =
  match Gateway.bind_source ks (tbl_get conf "source") g1 with
  | (g2, Some e) => (g2, Some e)
  | (g2, None) => Gateway.bind_destination kd (tbl_get conf "destination") g2
  end.
Proof. reflexivity. Qed.

Lemma UnmarshalTOML_source_first (ks : Gateway.Registry Source)
  (kd : Gateway.Registry Destination) (conf : list (string * TOML)) (g : Gateway.Gateway) :
  snd (Gateway.UnmarshalTOML ks kd (TTable conf) g)
    = match snd (Gateway.bind_source ks (tbl_get conf "source") g) with
      | Some e => Some e
      | None => snd (Gateway.bind_destination kd (tbl_get conf "destination") g)
      end.
Proof.
  rewrite UnmarshalTOML_split. cbv zeta.
  match goal with
  | |- context [Gateway.bind_source ks (tbl_get conf "source") ?g1] =>
      rewrite (bind_source_err ks (tbl_get conf "source") g g1);
      destruct (Gateway.bind_source ks (tbl_get conf "source") g1) as [g2 [e|]]
  end; [reflexivity|].
  apply bind_destination_err.
Qed.

(** C7 (amended): [Gateway.UnmarshalTOML] checks the source section before
    the destination section and stops at the first failure. A source table
    whose [type] names an unregistered type fails with the error naming that
    type. A destination [type] naming an unregistered type fails with the
    error naming that type whenever the source section binds without error.
    In general the entry's error is the source section's error when binding
    the source fails, and only otherwise the destination section's. And any
    route entry that fails to bind makes configuration loading fail, so
    [main] exits before the service is initialized and nothing is served. *)
Theorem UnmarshalTOML_unknown_type (ks : Gateway.Registry Source)
  (kd : Gateway.Registry Destination) :
  (forall conf g v name,
   tbl_get conf "source" = Some (TTable v) -> tbl_get v "type" = Some (TString name) ->
   name <> "" -> Gateway.reg_lookup ks name = None ->
   snd (Gateway.UnmarshalTOML ks kd (TTable conf) g)
     = Some ("unknown source type '" ++ name ++ "' given in gateway configuration")) /\
  (forall conf g v name,
   snd (Gateway.bind_source ks (tbl_get conf "source") g) = None ->
   tbl_get conf "destination" = Some (TTable v) -> tbl_get v "type" = Some (TString name) ->
   name <> "" -> Gateway.reg_lookup kd name = None ->
   snd (Gateway.UnmarshalTOML ks kd (TTable conf) g)
     = Some ("unknown destination type '" ++ name ++ "' given in gateway configuration")) /\
  (forall conf g,
   snd (Gateway.UnmarshalTOML ks kd (TTable conf) g)
     = match snd (Gateway.bind_source ks (tbl_get conf "source") g) with
       | Some e => Some e
       | None => snd (Gateway.bind_destination kd (tbl_get conf "destination") g)
       end) /\
  (forall mux_panic net_Listen decode_err ctx conf entries e,
   tbl_get conf "gateway" = Some (TTableArray entries) -> In e entries ->
   snd (Gateway.UnmarshalTOML ks kd (TTable e) Gateway.New) <> None ->
   exists m, main mux_panic net_Listen ks kd decode_err (inl conf) ctx
             = ExitFailure "Failed to load TOML configuration" (decode_err m)).
Proof.
  split; [|split; [|split]].
  - intros conf g v name Hs Ht Hn Hr. rewrite UnmarshalTOML_split. cbv zeta.
    unfold Gateway.bind_source at 1. rewrite Hs. cbn [as_table]. rewrite Ht. cbn [as_string].
    apply String.eqb_neq in Hn. rewrite Hn, Hr. reflexivity.
  - intros conf g v name Hb Hd Ht Hn Hr. rewrite UnmarshalTOML_split. cbv zeta.
    match goal with
    | |- context [Gateway.bind_source ks (tbl_get conf "source") ?g1] =>
        pose proof (bind_source_err ks (tbl_get conf "source") g1 g) as Ee;
        destruct (Gateway.bind_source ks (tbl_get conf "source") g1) as [g2 err] eqn:Eb
    end.
    rewrite Hb in Ee. simpl in Ee. subst err.
    unfold Gateway.bind_destination. rewrite Hd. cbn [as_table]. rewrite Ht.
    cbn [as_string]. apply String.eqb_neq in Hn. rewrite Hn, Hr. reflexivity.
  - intros conf g. apply UnmarshalTOML_source_first.
  - intros mux_panic net_Listen decode_err ctx conf entries e Hg Hin Herr. unfold main.
    destruct (Service.UnmarshalTOML ks kd (TTable conf) Service.New) as [s' [m|]] eqn:E.
    + exists m. reflexivity.
    + exfalso. unfold Service.UnmarshalTOML in E. rewrite Hg in E. cbn [as_table_array] in E.
      exact (bind_gateways_fails ks kd entries _ e Hin Herr (f_equal snd E)).
Qed.

Lemma UnmarshalTOML_unknown_type_witness :
  snd (Gateway.UnmarshalTOML Samples.known_sources Samples.known_destinations
         (TTable Samples.entry_unknown_source) Gateway.New)
    = Some "unknown source type 'unknown-vendor' given in gateway configuration" /\
  snd (Gateway.UnmarshalTOML Samples.known_sources Samples.known_destinations
         (TTable Samples.entry_unknown_destination) Gateway.New)
    = Some "unknown destination type 'unknown-vendor' given in gateway configuration" /\
  snd (Gateway.UnmarshalTOML Samples.known_sources Samples.known_destinations
         (TTable Samples.entry_untyped_source) Gateway.New)
    = Some "empty or missing source type in gateway configuration" /\
  exists m, main Samples.mux_exact Samples.listen_ok Samples.known_sources
              Samples.known_destinations Samples.decode_err (inl Samples.config_unknown_source)
              Background
            = ExitFailure "Failed to load TOML configuration" (Samples.decode_err m).
Proof.
  destruct (UnmarshalTOML_unknown_type Samples.known_sources Samples.known_destinations)
    as [H1 [H2 [H3 H4]]].
  split; [|split; [|split]].
  - apply (H1 Samples.entry_unknown_source Gateway.New [("type", TString "unknown-vendor")] "unknown-vendor");
      [reflexivity | reflexivity | discriminate | reflexivity].
  - apply (H2 Samples.entry_unknown_destination Gateway.New [("type", TString "unknown-vendor")] "unknown-vendor");
      [reflexivity | reflexivity | reflexivity | discriminate | reflexivity].
  - rewrite H3. vm_compute. reflexivity.
  - apply (H4 Samples.mux_exact Samples.listen_ok Samples.decode_err Background
             Samples.config_unknown_source [Samples.entry_unknown_source]
             Samples.entry_unknown_source);
      [reflexivity | left; reflexivity | vm_compute; discriminate].
Defined.











(** ** Message stanzas *)

Lemma UnmarshalXMLAttr_eq (attr : XAttr) :
  Stanza.UnmarshalXMLAttr attr = Stanza.MarshalText (AValue attr).
Proof.
  unfold Stanza.UnmarshalXMLAttr, Stanza.MarshalText, Stanza.NormalMessage,
    Stanza.ChatMessage, Stanza.ErrorMessage, Stanza.GroupChatMessage, Stanza.HeadlineMessage.
  destruct (String.eqb_spec (AValue attr) "normal") as [->|]; [reflexivity|].
  destruct (String.eqb_spec (AValue attr) "chat") as [->|]; [reflexivity|].
  destruct (String.eqb_spec (AValue attr) "error") as [->|]; [reflexivity|].
  destruct (String.eqb_spec (AValue attr) "groupchat") as [->|]; [reflexivity|].
  destruct (String.eqb_spec (AValue attr) "headline") as [->|]; reflexivity.
Qed.

(** [UnmarshalXMLAttr] stores the type [MarshalText] writes for the
    attribute's value: both map the five message types to themselves and
    any other value to ["normal"]; neither ever fails. *)
Theorem MessageType_normalize (attr : XAttr) (t : Stanza.MessageType) :
  Stanza.UnmarshalXMLAttr attr = Stanza.MarshalText (AValue attr) /\
  snd (Stanza.MarshalText t) = None /\
  In (fst (Stanza.MarshalText t)) message_types /\
  (In t message_types -> fst (Stanza.MarshalText t) = t) /\
  (~ In t message_types -> fst (Stanza.MarshalText t) = Stanza.NormalMessage).
Proof.
  split; [apply UnmarshalXMLAttr_eq|].
  unfold Stanza.MarshalText, message_types, Stanza.NormalMessage,
    Stanza.ChatMessage, Stanza.ErrorMessage, Stanza.GroupChatMessage, Stanza.HeadlineMessage.
  destruct (String.eqb_spec t "normal") as [->|];
    [cbn; intuition congruence|].
  destruct (String.eqb_spec t "chat") as [->|];
    [cbn; intuition congruence|].
  destruct (String.eqb_spec t "error") as [->|];
    [cbn; intuition congruence|].
  destruct (String.eqb_spec t "groupchat") as [->|];
    [cbn; intuition congruence|].
  destruct (String.eqb_spec t "headline") as [->|];
    [cbn; intuition congruence|].
  cbn. split; [reflexivity|]. split; [left; reflexivity|]. split; [|reflexivity].
  intros [H|[H|[H|[H|[H|[]]]]]]; congruence.
Qed.

Lemma MessageType_normalize_witness :
  Stanza.UnmarshalXMLAttr (mkXAttr (mkXName "" "type") "urgent")
    = Stanza.MarshalText "urgent" /\
  snd (Stanza.MarshalText "urgent") = None /\
  In (fst (Stanza.MarshalText "urgent")) message_types /\
  (In "chat" message_types -> fst (Stanza.MarshalText "chat") = "chat") /\
  (~ In "urgent" message_types -> fst (Stanza.MarshalText "urgent") = Stanza.NormalMessage).
Proof.
  destruct (MessageType_normalize (mkXAttr (mkXName "" "type") "urgent") "urgent")
    as [H1 [H2 [H3 [_ H5]]]].
  destruct (MessageType_normalize (mkXAttr (mkXName "" "type") "chat") "chat")
    as [_ [_ [_ [H4 _]]]].
  exact (conj H1 (conj H2 (conj H3 (conj H4 H5)))).
Defined.

Lemma Jid_Equal_true (j j2 : Jid.JID) : Jid.Equal j j2 = true -> j = j2.
Proof.
  destruct j as [l d r], j2 as [l2 d2 r2]. unfold Jid.Equal. cbn.
  intros H. apply andb_true_iff in H as [H H3]. apply andb_true_iff in H as [H1 H2].
  apply String.eqb_eq in H1, H2, H3. subst. reflexivity.
Qed.

Lemma Jid_String_nonempty (j : Jid.JID) :
  Jid.Equal j Jid.zero = false -> String.eqb (Jid.String j) "" = false.
Proof.
  destruct j as [l d r]. unfold Jid.Equal, Jid.String, Jid.zero. cbn.
  destruct (String.eqb_spec l ""), (String.eqb_spec d ""), (String.eqb_spec r "");
    subst; cbn; try discriminate; try reflexivity;
    intros _; try (destruct d; [congruence|reflexivity]);
    try (destruct l; [congruence|reflexivity]);
    try (destruct (d ++ _); reflexivity).
Qed.

Lemma new_message_start_element (jid_Parse : string -> Jid.JID * error) (m : Stanza.Message) :
  (Jid.Equal (Stanza.To m) Jid.zero = false ->
   jid_Parse (Jid.String (Stanza.To m)) = (Stanza.To m, None)) ->
  (Jid.Equal (Stanza.From m) Jid.zero = false ->
   jid_Parse (Jid.String (Stanza.From m)) = (Stanza.From m, None)) ->
  Stanza.NewMessage jid_Parse (Stanza.StartElement m) =
  (Stanza.mkMessage (mkXName (Space (Stanza.XMLName m)) "message") (Stanza.ID m)
     (Stanza.To m) (Stanza.From m) (Stanza.Lang m) (fst (Stanza.MarshalText (Stanza.Type_ m))),
   None).
Proof.
  intros HTo HFrom. destruct m as [xn id to from lang ty]. cbn [Stanza.To Stanza.From] in *.
  unfold Stanza.StartElement, Stanza.NewMessage. cbn [Stanza.XMLName Stanza.ID Stanza.To
    Stanza.From Stanza.Lang Stanza.Type_ SName SAttr Space].
  destruct (Jid.Equal to Jid.zero) eqn:Et, (Jid.Equal from Jid.zero) eqn:Ef,
    (String.eqb_spec id ""), (String.eqb_spec lang ""); subst;
    try (apply Jid_Equal_true in Et; subst to);
    try (apply Jid_Equal_true in Ef; subst from);
    cbn - [Jid.String Stanza.UnmarshalXMLAttr]; rewrite UnmarshalXMLAttr_eq;
    unfold Stanza.MarshalText; cbn - [Jid.String];
    repeat match goal with
           | H : Jid.Equal ?j Jid.zero = false |- _ =>
               rewrite (Jid_String_nonempty j H); cbn - [Jid.String];
               first [rewrite (HTo eq_refl) | rewrite (HFrom eq_refl)]; clear H;
               cbn - [Jid.String]
           end;
    reflexivity.
Qed.

Lemma marshal_text_fst (t : Stanza.MessageType) :
  fst (Stanza.MarshalText t)
    = if existsb (String.eqb t) message_types then t else Stanza.NormalMessage.
Proof.
  unfold Stanza.MarshalText, message_types. cbn [existsb fst].
  destruct (String.eqb t Stanza.NormalMessage), (String.eqb t Stanza.ChatMessage),
    (String.eqb t Stanza.ErrorMessage), (String.eqb t Stanza.GroupChatMessage),
    (String.eqb t Stanza.HeadlineMessage); reflexivity.
Qed.

(** [NewMessage] reads back what [StartElement] writes: the parsed message
    is the original one, named [message] in the original namespace, except
    for its type: [StartElement] writes the type as it is and [NewMessage]
    normalizes it, so a type among the five message types comes back
    unchanged and any other type, the empty one included, comes back as
    ["normal"]. This holds provided [jid.Parse] reads back the addresses
    [JID.String] writes. *)
Theorem NewMessage_StartElement (jid_Parse : string -> Jid.JID * error) (m : Stanza.Message) :
  (Jid.Equal (Stanza.To m) Jid.zero = false ->
   jid_Parse (Jid.String (Stanza.To m)) = (Stanza.To m, None)) ->
  (Jid.Equal (Stanza.From m) Jid.zero = false ->
   jid_Parse (Jid.String (Stanza.From m)) = (Stanza.From m, None)) ->
  Stanza.NewMessage jid_Parse (Stanza.StartElement m) =
  (Stanza.mkMessage (mkXName (Space (Stanza.XMLName m)) "message") (Stanza.ID m)
     (Stanza.To m) (Stanza.From m) (Stanza.Lang m)
     (if existsb (String.eqb (Stanza.Type_ m)) message_types then Stanza.Type_ m
      else Stanza.NormalMessage),
   None).
Proof. rewrite <- marshal_text_fst. apply new_message_start_element. Qed.

Lemma NewMessage_StartElement_witness :
  Stanza.NewMessage Samples.jid_parse
    (Stanza.StartElement Samples.stanza_alice) =
  (Stanza.mkMessage (mkXName "jabber:client" "message") "m1" Samples.alice Jid.zero "en"
     "headline", None) /\
  Stanza.NewMessage Samples.jid_parse
    (Stanza.StartElement (Stanza.set_Type Samples.stanza_alice "")) =
  (Stanza.mkMessage (mkXName "jabber:client" "message") "m1" Samples.alice Jid.zero "en"
     "normal", None).
Proof.
  split.
  - apply (NewMessage_StartElement Samples.jid_parse Samples.stanza_alice);
      [intros _; reflexivity | intros H; discriminate H].
  - apply (NewMessage_StartElement Samples.jid_parse (Stanza.set_Type Samples.stanza_alice ""));
      [intros _; reflexivity | intros H; discriminate H].
Defined.

(** [msg.Error(err)] wraps the error's tokens in a message start element
    and its end element; read back with [NewMessage], that start element
    is [msg] with [to] and [from] exchanged and type ["error"]. *)
Theorem Message_Error_reply (jid_Parse : string -> Jid.JID * error) (m : Stanza.Message)
  (errTokens : list Token) :
  (Jid.Equal (Stanza.To m) Jid.zero = false ->
   jid_Parse (Jid.String (Stanza.To m)) = (Stanza.To m, None)) ->
  (Jid.Equal (Stanza.From m) Jid.zero = false ->
   jid_Parse (Jid.String (Stanza.From m)) = (Stanza.From m, None)) ->
  exists se,
    Stanza.Error m errTokens = (TokStart se :: errTokens ++ [TokEnd (SName se)])%list /\
    SName se = mkXName (Space (Stanza.XMLName m)) "message" /\
    Stanza.NewMessage jid_Parse se =
    (Stanza.mkMessage (mkXName (Space (Stanza.XMLName m)) "message") (Stanza.ID m)
       (Stanza.From m) (Stanza.To m) (Stanza.Lang m) Stanza.ErrorMessage, None).
Proof.
  intros HTo HFrom.
  set (m' := Stanza.set_To (Stanza.set_From (Stanza.set_Type m Stanza.ErrorMessage)
                             (Stanza.To m)) (Stanza.From m)).
  exists (Stanza.StartElement m'). split; [reflexivity|]. split; [reflexivity|].
  destruct m as [xn id to from lang ty].
  apply (new_message_start_element jid_Parse m'); assumption.
Qed.

Lemma Message_Error_reply_witness :
  exists se,
    Stanza.Error Samples.stanza_alice [] = (TokStart se :: [] ++ [TokEnd (SName se)])%list /\
    SName se = mkXName "jabber:client" "message" /\
    Stanza.NewMessage Samples.jid_parse se =
    (Stanza.mkMessage (mkXName "jabber:client" "message") "m1" Jid.zero Samples.alice "en"
       Stanza.ErrorMessage, None).
Proof.
  apply (Message_Error_reply Samples.jid_parse Samples.stanza_alice []);
    [intros _; reflexivity | intros H; discriminate H].
Defined.

(** [NewMessage] ignores every attribute in a namespace other than the
    element's own, except [xml:lang]: dropping those attributes from the
    start element does not change the parsed message or the error. *)
Theorem NewMessage_foreign_attrs (jid_Parse : string -> Jid.JID * error) (n : XName)
  (attrs : list XAttr) :
  Stanza.NewMessage jid_Parse (mkStartElement n attrs) =
  Stanza.NewMessage jid_Parse
    (mkStartElement n
       (filter (fun a => (String.eqb (Local (AName a)) "lang"
                          && String.eqb (Space (AName a)) Stanza.ns_XML)
                         || String.eqb (Space (AName a)) ""
                         || String.eqb (Space (AName a)) (Space n)) attrs)).
Proof.
  unfold Stanza.NewMessage. cbn [SName SAttr].
  generalize (Stanza.mkMessage n "" Jid.zero Jid.zero "" "normal") as v.
  induction attrs as [|a rest IH]; intros v; [reflexivity|].
  cbn [filter Stanza.new_message_attrs].
  destruct (String.eqb (Local (AName a)) "lang" && String.eqb (Space (AName a)) Stanza.ns_XML)
    eqn:El; cbn [orb].
  - cbn [Stanza.new_message_attrs]. rewrite El. apply IH.
  - destruct (String.eqb (Space (AName a)) "") eqn:E1,
      (String.eqb (Space (AName a)) (Space n)) eqn:E2; cbn [orb negb andb];
      try apply IH;
      cbn [Stanza.new_message_attrs]; rewrite El, E1, E2; cbn [orb negb andb];
      (destruct (String.eqb (Local (AName a)) "id"); [apply IH|]);
      (destruct (String.eqb (Local (AName a)) "to");
       [destruct (negb (String.eqb (AValue a) "")); [|apply IH];
        destruct (jid_Parse (AValue a)) as [j [e|]]; [reflexivity|apply IH]|]);
      (destruct (String.eqb (Local (AName a)) "from");
       [destruct (negb (String.eqb (AValue a) "")); [|apply IH];
        destruct (jid_Parse (AValue a)) as [j [e|]]; [reflexivity|apply IH]|]);
      (destruct (String.eqb (Local (AName a)) "type");
       [destruct (Stanza.UnmarshalXMLAttr a) as [t [e|]]; [reflexivity|apply IH]|]);
      apply IH.
Qed.

Lemma NewMessage_foreign_attrs_witness :
  Stanza.NewMessage Samples.jid_parse
    (mkStartElement (mkXName "jabber:client" "message")
       [mkXAttr (mkXName "urn:example" "type") "chat";
        mkXAttr (mkXName "" "id") "m2"]) =
  Stanza.NewMessage Samples.jid_parse
    (mkStartElement (mkXName "jabber:client" "message") [mkXAttr (mkXName "" "id") "m2"]).
Proof.
  exact (NewMessage_foreign_attrs Samples.jid_parse (mkXName "jabber:client" "message")
           [mkXAttr (mkXName "urn:example" "type") "chat"; mkXAttr (mkXName "" "id") "m2"]).
Defined.

(** ** The XMPP destination *)

Section XMPPProofs.

Variable Encode : XMPP.XMessage -> error.

Lemma push_recipients_ok (msg : Message) (rs : list Jid.JID) :
  snd (XMPP.push_recipients Encode msg rs) = None ->
  fst (XMPP.push_recipients Encode msg rs) = map (XMPP.message_for msg) rs.
Proof.
  induction rs as [|j rest IH]; [reflexivity|]. cbn [XMPP.push_recipients].
  destruct (Encode (XMPP.message_for msg j)); [discriminate|].
  destruct (XMPP.push_recipients Encode msg rest) as [t err]. cbn in *.
  intros H. rewrite (IH H). reflexivity.
Qed.

Lemma push_recipients_each (msg : Message) (rs : list Jid.JID) :
  snd (XMPP.push_recipients Encode msg rs) = None ->
  Forall (fun m => Encode m = None) (fst (XMPP.push_recipients Encode msg rs)).
Proof.
  induction rs as [|j rest IH]; [constructor|]. cbn [XMPP.push_recipients].
  destruct (Encode (XMPP.message_for msg j)) eqn:Ee; [discriminate|].
  destruct (XMPP.push_recipients Encode msg rest) as [t err]. cbn in *.
  intros H. constructor; [assumption | exact (IH H)].
Qed.

Lemma push_recipients_total (msg : Message) (rs : list Jid.JID) :
  (forall m, Encode m = None) -> snd (XMPP.push_recipients Encode msg rs) = None.
Proof.
  intros Hok. induction rs as [|j rest IH]; [reflexivity|]. cbn [XMPP.push_recipients].
  rewrite Hok. destruct (XMPP.push_recipients Encode msg rest). exact IH.
Qed.

Lemma push_all_ok (rs : list Jid.JID) (msgs : list Message) :
  snd (XMPP.push_all Encode rs msgs) = None ->
  fst (XMPP.push_all Encode rs msgs) = flat_map (fun msg => map (XMPP.message_for msg) rs) msgs.
Proof.
  induction msgs as [|msg rest IH]; [reflexivity|]. cbn [XMPP.push_all flat_map].
  pose proof (push_recipients_ok msg rs) as Hr.
  destruct (XMPP.push_recipients Encode msg rs) as [t [e|]]; [discriminate|].
  destruct (XMPP.push_all Encode rs rest) as [t' err']. cbn in *.
  intros H. rewrite (Hr eq_refl), (IH H). reflexivity.
Qed.

Lemma push_all_total (rs : list Jid.JID) (msgs : list Message) :
  (forall m, Encode m = None) -> snd (XMPP.push_all Encode rs msgs) = None.
Proof.
  intros Hok. induction msgs as [|msg rest IH]; [reflexivity|]. cbn [XMPP.push_all].
  pose proof (push_recipients_total msg rs Hok) as Hr.
  destruct (XMPP.push_recipients Encode msg rs) as [t [e|]]; [discriminate|].
  destruct (XMPP.push_all Encode rs rest). exact IH.
Qed.

Lemma push_recipients_fail (msg : Message) (rs : list Jid.JID) (e : string) :
  snd (XMPP.push_recipients Encode msg rs) = Some e ->
  exists pre m post,
    fst (XMPP.push_recipients Encode msg rs) = (pre ++ [m])%list /\
    map (XMPP.message_for msg) rs = (pre ++ m :: post)%list /\
    Encode m = Some e /\ Forall (fun m' => Encode m' = None) pre.
Proof.
  induction rs as [|j rest IH]; [discriminate|]. cbn [XMPP.push_recipients map].
  destruct (Encode (XMPP.message_for msg j)) as [e'|] eqn:Ee.
  - cbn. intros [= <-]. exists [], (XMPP.message_for msg j), (map (XMPP.message_for msg) rest).
    repeat split; [assumption | constructor].
  - destruct (XMPP.push_recipients Encode msg rest) as [t err] eqn:Er. cbn. intros H.
    destruct (IH H) as (pre & m & post & Ht & Hm & He & Hpre).
    exists (XMPP.message_for msg j :: pre), m, post. cbn in Ht. rewrite Ht, Hm.
    repeat split; [assumption | constructor; assumption].
Qed.

Lemma push_all_fail (rs : list Jid.JID) (msgs : list Message) (e : string) :
  snd (XMPP.push_all Encode rs msgs) = Some e ->
  exists pre m post,
    fst (XMPP.push_all Encode rs msgs) = (pre ++ [m])%list /\
    flat_map (fun msg => map (XMPP.message_for msg) rs) msgs = (pre ++ m :: post)%list /\
    Encode m = Some e /\ Forall (fun m' => Encode m' = None) pre.
Proof.
  induction msgs as [|msg rest IH]; [discriminate|]. cbn [XMPP.push_all flat_map].
  pose proof (push_recipients_ok msg rs) as Hok.
  pose proof (push_recipients_fail msg rs) as Hfail.
  pose proof (push_recipients_each msg rs) as Heach.
  destruct (XMPP.push_recipients Encode msg rs) as [t [e'|]] eqn:Er.
  - cbn. intros [= <-].
    destruct (Hfail e' eq_refl) as (pre & m & post & Ht & Hm & He & Hpre).
    exists pre, m, (post ++ flat_map (fun msg => map (XMPP.message_for msg) rs) rest)%list.
    cbn in Ht. rewrite Ht, Hm, <- app_assoc. repeat split; assumption.
  - destruct (XMPP.push_all Encode rs rest) as [t' err'] eqn:Ea. cbn. intros H.
    destruct (IH H) as (pre & m & post & Ht & Hm & He & Hpre).
    cbn in Ht, Hok, Heach. specialize (Heach eq_refl). rewrite (Hok eq_refl) in Heach.
    rewrite (Hok eq_refl), Ht, Hm.
    exists (map (XMPP.message_for msg) rs ++ pre)%list, m, post.
    rewrite <- !app_assoc. repeat split; [assumption|].
    apply Forall_app. split; assumption.
Qed.

End XMPPProofs.

Lemma length_flat_map_map {A B : Type} (f : Message -> A -> B) (rs : list A) (msgs : list Message) :
  length (flat_map (fun msg => map (f msg) rs) msgs) = length msgs * length rs.
Proof.
  induction msgs as [|msg rest IH]; [reflexivity|].
  cbn [flat_map length]. rewrite length_app, length_map, IH. reflexivity.
Qed.

(** [XMPP.PushMessages] sends every message to every recipient, message by
    message and, for each message, in the order of the recipients: when it
    returns [nil] it has encoded exactly one stanza per message and
    recipient, and it returns [nil] whenever no encoding fails. Each stanza
    carries the message content as its body and is addressed to the bare
    recipient address, as a [groupchat] message when the configured address
    has a resource part and as a [chat] message otherwise. *)
Theorem XMPP_PushMessages_delivery (Encode : XMPP.XMessage -> error) (x : XMPP.XMPP)
  (msgs : list Message) :
  (snd (XMPP.PushMessages Encode x msgs) = None ->
   fst (XMPP.PushMessages Encode x msgs)
     = flat_map (fun msg => map (XMPP.message_for msg) (XMPP.recipientJIDs x)) msgs /\
   length (fst (XMPP.PushMessages Encode x msgs))
     = length msgs * length (XMPP.recipientJIDs x)) /\
  ((forall m, Encode m = None) -> snd (XMPP.PushMessages Encode x msgs) = None) /\
  (forall msg j,
   Stanza.To (XMPP.stanza (XMPP.message_for msg j)) = Jid.Bare j /\
   Stanza.Type_ (XMPP.stanza (XMPP.message_for msg j))
     = (if String.eqb (Jid.Resourcepart j) "" then Stanza.ChatMessage
        else Stanza.GroupChatMessage) /\
   XMPP.Body (XMPP.message_for msg j) = Content msg).
Proof.
  split; [|split].
  - intros H. unfold XMPP.PushMessages in *. rewrite (push_all_ok Encode _ _ H).
    split; [reflexivity | apply length_flat_map_map].
  - intros Hok. apply push_all_total. exact Hok.
  - intros msg [l d r]. unfold XMPP.message_for, Jid.Bare. cbn.
    destruct (String.eqb_spec r ""); subst; cbn; repeat split.
Qed.

Lemma XMPP_PushMessages_delivery_witness :
  fst (XMPP.PushMessages (fun _ => None) Samples.xmpp_two [mkMessage "a"; mkMessage "b"])
    = flat_map (fun msg => map (XMPP.message_for msg) (XMPP.recipientJIDs Samples.xmpp_two))
        [mkMessage "a"; mkMessage "b"] /\
  length (fst (XMPP.PushMessages (fun _ => None) Samples.xmpp_two
                 [mkMessage "a"; mkMessage "b"])) = 4 /\
  snd (XMPP.PushMessages (fun _ => None) Samples.xmpp_two [mkMessage "a"; mkMessage "b"]) = None /\
  Stanza.Type_ (XMPP.stanza (XMPP.message_for (mkMessage "a") Samples.room))
    = Stanza.GroupChatMessage.
Proof.
  destruct (XMPP_PushMessages_delivery (fun _ => None) Samples.xmpp_two
              [mkMessage "a"; mkMessage "b"]) as [H1 [H2 H3]].
  destruct (H1 eq_refl) as [Ht Hl].
  split; [exact Ht|]. split; [exact Hl|]. split; [apply H2; reflexivity|].
  destruct (H3 (mkMessage "a") Samples.room) as [_ [Hty _]]. exact Hty.
Defined.

(** [XMPP.PushMessages] stops at the first stanza whose encoding fails and
    returns that error as it is: the stanzas encoded are a prefix of the
    full message-by-recipient sequence, all of them but the last encoded
    successfully, and nothing after the failing one is sent. *)
Theorem XMPP_PushMessages_abort (Encode : XMPP.XMessage -> error) (x : XMPP.XMPP)
  (msgs : list Message) (e : string) :
  snd (XMPP.PushMessages Encode x msgs) = Some e ->
  exists pre m post,
    fst (XMPP.PushMessages Encode x msgs) = (pre ++ [m])%list /\
    flat_map (fun msg => map (XMPP.message_for msg) (XMPP.recipientJIDs x)) msgs
      = (pre ++ m :: post)%list /\
    Encode m = Some e /\ Forall (fun m' => Encode m' = None) pre.
Proof. apply push_all_fail. Qed.

Lemma XMPP_PushMessages_abort_witness :
  exists pre m post,
    fst (XMPP.PushMessages Samples.encode_no_rooms Samples.xmpp_two [mkMessage "a"])
      = (pre ++ [m])%list /\
    flat_map (fun msg => map (XMPP.message_for msg) (XMPP.recipientJIDs Samples.xmpp_two))
      [mkMessage "a"] = (pre ++ m :: post)%list /\
    Samples.encode_no_rooms m = Some "not joined" /\
    Forall (fun m' => Samples.encode_no_rooms m' = None) pre.
Proof.
  apply (XMPP_PushMessages_abort Samples.encode_no_rooms Samples.xmpp_two [mkMessage "a"]).
  reflexivity.
Defined.

Section XMPPInitProofs.

Variable Dial : XMPP.Dialer -> Jid.JID -> error.
Variable NewClientSession : Jid.JID -> list XMPP.StreamFeature -> error.
Variable Send : XMPP.Presence -> error.

Lemma send_presences_ok (rs : list Jid.JID) :
  snd (XMPP.send_presences Send rs) = None ->
  fst (XMPP.send_presences Send rs) = map (fun j => XMPP.XSend (XMPP.mkPresence "" j)) rs.
Proof.
  induction rs as [|j rest IH]; [reflexivity|]. cbn [XMPP.send_presences map].
  destruct (Send (XMPP.mkPresence "" j)); [discriminate|].
  destruct (XMPP.send_presences Send rest) as [t err]. cbn in *. intros H.
  rewrite (IH H). reflexivity.
Qed.

Lemma send_presences_fail (pre post : list Jid.JID) (j : Jid.JID) (e : string) :
  Forall (fun j' => Send (XMPP.mkPresence "" j') = None) pre ->
  Send (XMPP.mkPresence "" j) = Some e ->
  XMPP.send_presences Send (pre ++ j :: post) =
  ((map (fun j' => XMPP.XSend (XMPP.mkPresence "" j')) pre
    ++ [XMPP.XSend (XMPP.mkPresence "" j)])%list,
   Some ("sending XMPP presence to " ++ Jid.String j ++ " failed: " ++ e)).
Proof.
  intros Hpre Hj. induction Hpre as [|j' pre Hj' Hpre IH].
  - cbn. rewrite Hj. reflexivity.
  - cbn [app XMPP.send_presences]. rewrite Hj', IH. reflexivity.
Qed.

End XMPPInitProofs.

(** [XMPP.Init] checks its configuration before any network call: an
    empty client address, then an empty recipient list, fail with no
    call made. When it succeeds it has dialled the client address, opened
    one session and sent an available presence to the server, then one to
    each recipient in order. It passes a TLS configuration to the dialer
    only when TLS verification is disabled (and then with verification
    skipped). The session features always start with resource binding,
    include StartTLS exactly when [use-starttls] is set, and include SASL
    with the configured password exactly when that password is not empty. *)
Theorem XMPP_Init_sequence
  (Dial : XMPP.Dialer -> Jid.JID -> error)
  (NewClientSession : Jid.JID -> list XMPP.StreamFeature -> error)
  (Send : XMPP.Presence -> error) (x : XMPP.XMPP) :
  (Jid.Equal (XMPP.clientJID x) Jid.zero = true ->
   XMPP.Init Dial NewClientSession Send x = ([], Some "empty client JID given in configuration")) /\
  (Jid.Equal (XMPP.clientJID x) Jid.zero = false -> XMPP.recipientJIDs x = [] ->
   XMPP.Init Dial NewClientSession Send x = ([], Some "no recipient JIDs given in configuration")) /\
  (snd (XMPP.Init Dial NewClientSession Send x) = None ->
   exists d fs,
     fst (XMPP.Init Dial NewClientSession Send x) =
       ([XMPP.XDial d (XMPP.clientJID x); XMPP.XNewClientSession (XMPP.clientJID x) fs;
         XMPP.XSend (XMPP.mkPresence "" Jid.zero)]
        ++ map (fun j => XMPP.XSend (XMPP.mkPresence "" j)) (XMPP.recipientJIDs x))%list /\
     XMPP.NoTLS d = XMPP.noTLS x /\
     XMPP.TLSConfig_ d = (if XMPP.noVerifyTLS x
                          then Some (XMPP.mkTLSConfig (Jid.Domainpart (XMPP.clientJID x)) true)
                          else None) /\
     hd_error fs = Some XMPP.BindResource /\
     (In (XMPP.StartTLS (XMPP.mkTLSConfig (Jid.Domainpart (XMPP.clientJID x))
                                          (XMPP.noVerifyTLS x))) fs
      <-> XMPP.useStartTLS x = true) /\
     (In (XMPP.SASL "" (XMPP.clientPassword x) XMPP.defaultAuthMechanisms) fs
      <-> XMPP.clientPassword x <> "")).
Proof.
  split; [|split].
  - intros H. unfold XMPP.Init. rewrite H. reflexivity.
  - intros H Hr. unfold XMPP.Init. rewrite H, Hr. reflexivity.
  - unfold XMPP.Init. cbv zeta.
    destruct (Jid.Equal (XMPP.clientJID x) Jid.zero); [discriminate|].
    destruct (Nat.eqb (length (XMPP.recipientJIDs x)) 0); [discriminate|].
    destruct (Dial _ _); [discriminate|].
    destruct (NewClientSession _ _); [discriminate|].
    destruct (Send (XMPP.mkPresence "" Jid.zero)); [discriminate|].
    pose proof (send_presences_ok Send (XMPP.recipientJIDs x)) as Hs.
    destruct (XMPP.send_presences Send (XMPP.recipientJIDs x)) as [t err].
    cbn [fst snd] in *. intros H. rewrite (Hs H).
    eexists _, _. split; [reflexivity|]. cbn [XMPP.NoTLS XMPP.TLSConfig_].
    split; [reflexivity|].
    destruct (XMPP.noVerifyTLS x), (XMPP.useStartTLS x),
      (String.eqb_spec (XMPP.clientPassword x) ""); cbn;
      (split; [reflexivity|]); (split; [reflexivity|]);
      (split; [split; intros Hin; intuition discriminate|]);
      split; intros Hin; intuition (try discriminate; try congruence).
Qed.

Lemma XMPP_Init_sequence_witness :
  XMPP.Init (fun _ _ => None) (fun _ _ => None) (fun _ => None) XMPP.empty
    = ([], Some "empty client JID given in configuration") /\
  XMPP.Init (fun _ _ => None) (fun _ _ => None) (fun _ => None)
    (XMPP.set_clientJID XMPP.empty Samples.alice)
    = ([], Some "no recipient JIDs given in configuration") /\
  exists d fs,
    fst (XMPP.Init (fun _ _ => None) (fun _ _ => None) (fun _ => None) Samples.xmpp_two) =
      ([XMPP.XDial d (XMPP.clientJID Samples.xmpp_two);
        XMPP.XNewClientSession (XMPP.clientJID Samples.xmpp_two) fs;
        XMPP.XSend (XMPP.mkPresence "" Jid.zero)]
       ++ map (fun j => XMPP.XSend (XMPP.mkPresence "" j))
              (XMPP.recipientJIDs Samples.xmpp_two))%list /\
    XMPP.NoTLS d = false /\ XMPP.TLSConfig_ d = None /\ hd_error fs = Some XMPP.BindResource /\
    (In (XMPP.StartTLS (XMPP.mkTLSConfig "example.org" false)) fs <-> false = true) /\
    (In (XMPP.SASL "" "secret" XMPP.defaultAuthMechanisms) fs <-> "secret" <> "").
Proof.
  destruct (XMPP_Init_sequence (fun _ _ => None) (fun _ _ => None) (fun _ => None)
              XMPP.empty) as [H1 _].
  destruct (XMPP_Init_sequence (fun _ _ => None) (fun _ _ => None) (fun _ => None)
              (XMPP.set_clientJID XMPP.empty Samples.alice)) as [_ [H2 _]].
  destruct (XMPP_Init_sequence (fun _ _ => None) (fun _ _ => None) (fun _ => None)
              Samples.xmpp_two) as [_ [_ H3]].
  split; [apply H1; reflexivity|]. split; [apply H2; reflexivity|].
  exact (H3 eq_refl).
Defined.

(** When sending the available presence to a recipient fails, [XMPP.Init]
    returns an error naming that recipient's address, after presences to
    the recipients before it and none to those after it. *)
Theorem XMPP_Init_presence_failure
  (Dial : XMPP.Dialer -> Jid.JID -> error)
  (NewClientSession : Jid.JID -> list XMPP.StreamFeature -> error)
  (Send : XMPP.Presence -> error) (x : XMPP.XMPP)
  (pre post : list Jid.JID) (j : Jid.JID) (e : string) :
  Jid.Equal (XMPP.clientJID x) Jid.zero = false ->
  XMPP.recipientJIDs x = (pre ++ j :: post)%list ->
  (forall d, Dial d (XMPP.clientJID x) = None) ->
  (forall fs, NewClientSession (XMPP.clientJID x) fs = None) ->
  Send (XMPP.mkPresence "" Jid.zero) = None ->
  Forall (fun j' => Send (XMPP.mkPresence "" j') = None) pre ->
  Send (XMPP.mkPresence "" j) = Some e ->
  snd (XMPP.Init Dial NewClientSession Send x)
    = Some ("sending XMPP presence to " ++ Jid.String j ++ " failed: " ++ e) /\
  exists ev,
    fst (XMPP.Init Dial NewClientSession Send x)
      = (ev ++ map (fun j' => XMPP.XSend (XMPP.mkPresence "" j')) pre
         ++ [XMPP.XSend (XMPP.mkPresence "" j)])%list.
Proof.
  intros Hj Hr Hd Hn H0 Hpre He. unfold XMPP.Init. cbv zeta.
  rewrite Hj, Hr, Hd, Hn, H0, (send_presences_fail Send pre post j e Hpre He).
  destruct (Nat.eqb (length (pre ++ j :: post)) 0) eqn:El.
  - apply Nat.eqb_eq in El. rewrite length_app in El. cbn in El. lia.
  - cbn [fst snd]. split; [reflexivity|].
    match goal with
    | |- exists ev, (?l ++ ?c :: _)%list = _ =>
        exists (l ++ [c])%list; rewrite <- app_assoc; reflexivity
    end.
Qed.

Lemma XMPP_Init_presence_failure_witness :
  snd (XMPP.Init (fun _ _ => None) (fun _ _ => None) Samples.send_no_rooms Samples.xmpp_two)
    = Some ("sending XMPP presence to room@conf.example.org/bot failed: not joined") /\
  exists ev,
    fst (XMPP.Init (fun _ _ => None) (fun _ _ => None) Samples.send_no_rooms Samples.xmpp_two)
      = (ev ++ map (fun j' => XMPP.XSend (XMPP.mkPresence "" j')) [Samples.bob]
         ++ [XMPP.XSend (XMPP.mkPresence "" Samples.room)])%list.
Proof.
  apply (XMPP_Init_presence_failure (fun _ _ => None) (fun _ _ => None) Samples.send_no_rooms
           Samples.xmpp_two [Samples.bob] [] Samples.room "not joined");
    try reflexivity; try (intros; reflexivity).
  constructor; [reflexivity | constructor].
Defined.

Lemma str_app_nil (a : string) : (a ++ "")%string = a.
Proof. induction a as [|c a IH]; cbn; [reflexivity | rewrite IH; reflexivity]. Qed.

Lemma str_app_assoc (a b c : string) : ((a ++ b) ++ c)%string = (a ++ (b ++ c))%string.
Proof. induction a as [|ch a IH]; cbn; [reflexivity | rewrite IH; reflexivity]. Qed.

Lemma str_length_app (a b : string) :
  String.length (a ++ b) = String.length a + String.length b.
Proof. induction a as [|c a IH]; cbn; [reflexivity | rewrite IH; reflexivity]. Qed.

Lemma str_drop_app (i : nat) (a b : string) :
  i <= String.length a -> str_drop i (a ++ b) = (str_drop i a ++ b)%string.
Proof.
  revert i. induction a as [|c a IH]; intros i Hi.
  - cbn in Hi. assert (i = 0) as -> by lia. reflexivity.
  - destruct i as [|i]; [reflexivity|]. cbn in Hi |- *. apply IH. lia.
Qed.

Lemma str_drop_length (i : nat) (a : string) : String.length a <= i -> str_drop i a = "".
Proof.
  revert i. induction a as [|c a IH]; intros i Hi.
  - destruct i; reflexivity.
  - destruct i as [|i]; cbn in Hi; [lia|]. cbn. apply IH. lia.
Qed.

(** A white-space rune is recognised from its own bytes: what follows it
    cannot turn a non-space position into a space. *)
Lemma space_len_prefix (a b : string) : space_len (a ++ b) = 0 -> space_len a = 0.
Proof.
  destruct a as [|c1 [|c2 [|c3 a]]]; cbn [String.append]; [reflexivity| | |].
  - unfold space_len. destruct (_ || _); [exact (fun H => H) | reflexivity].
  - unfold space_len. destruct (_ || _ || _ || _ || _ || _); [exact (fun H => H)|].
    destruct (_ && _); [exact (fun H => H) | reflexivity].
  - intros H. exact H.
Qed.

Lemma field_no_space (cur s : string) :
  (forall i, i < String.length cur -> space_len (str_drop i cur ++ s) = 0) ->
  forall i, space_len (str_drop i cur) = 0.
Proof.
  intros H i. destruct (Nat.lt_ge_cases i (String.length cur)) as [Hi|Hi].
  - apply space_len_prefix with s. apply H, Hi.
  - rewrite str_drop_length by exact Hi. reflexivity.
Qed.

Lemma fields_aux_no_space (s : string) : forall skip cur,
  (skip <> 0 -> cur = "") ->
  (forall i, i < String.length cur -> space_len (str_drop i cur ++ s) = 0) ->
  forall f, In f (fields_aux skip cur s) ->
  f <> "" /\ forall i, space_len (str_drop i f) = 0.
Proof.
  induction s as [|c rest IH]; intros skip cur Hskip Hdrop f Hin.
  - cbn in Hin. destruct (String.eqb_spec cur ""); [destruct Hin|].
    destruct Hin as [<-|[]]. split; [assumption|]. exact (field_no_space cur "" Hdrop).
  - destruct skip as [|k].
    + cbn [fields_aux] in Hin. destruct (space_len (String c rest)) as [|k] eqn:Esp.
      * refine (IH 0 (cur ++ String c "") _ _ f Hin); [intros H; exfalso; apply H; reflexivity|].
        intros i Hi. rewrite str_length_app in Hi. cbn in Hi.
        rewrite str_drop_app by lia. rewrite str_app_assoc. cbn [String.append].
        destruct (Nat.lt_ge_cases i (String.length cur)) as [Hlt|Hge].
        -- apply Hdrop, Hlt.
        -- rewrite str_drop_length by exact Hge. exact Esp.
      * apply in_app_or in Hin. destruct Hin as [Hin|Hin].
        -- destruct (String.eqb_spec cur ""); [destruct Hin|].
           destruct Hin as [<-|[]]. split; [assumption|].
           exact (field_no_space cur (String c rest) Hdrop).
        -- refine (IH k "" _ _ f Hin); [intros _; reflexivity | intros i Hi; cbn in Hi; lia].
    + assert (cur = "") as -> by (apply Hskip; discriminate).
      cbn [fields_aux] in Hin. refine (IH k "" _ _ f Hin);
        [intros _; reflexivity | intros i Hi; cbn in Hi; lia].
Qed.

Lemma parse_recipients_ok (jp : string -> Jid.JID * error) (rs : list Jid.JID) (fs : list string) :
  snd (XMPP.parse_recipients jp rs fs) = None ->
  fst (XMPP.parse_recipients jp rs fs) = (rs ++ map (fun r => fst (jp r)) fs)%list.
Proof.
  revert rs. induction fs as [|r rest IH]; intros rs.
  - intros _. cbn. rewrite app_nil_r. reflexivity.
  - cbn [XMPP.parse_recipients map]. destruct (jp r) as [id [e|]] eqn:E; cbn [fst snd].
    + discriminate.
    + intros H. rewrite (IH _ H), <- app_assoc. reflexivity.
Qed.

Lemma parse_recipients_fail (jp : string -> Jid.JID * error) (rs : list Jid.JID)
  (pre post : list string) (r : string) (id : Jid.JID) (e : string) :
  Forall (fun f => snd (jp f) = None) pre -> jp r = (id, Some e) ->
  XMPP.parse_recipients jp rs (pre ++ r :: post)
    = ((rs ++ map (fun f => fst (jp f)) pre)%list, Some ("failed parsing recipient JID: " ++ e)).
Proof.
  intros Hpre Hr. revert rs. induction Hpre as [|f pre Hf Hpre IH]; intros rs.
  - cbn. rewrite Hr, app_nil_r. reflexivity.
  - cbn [app XMPP.parse_recipients map]. destruct (jp f) as [id' err] eqn:E.
    cbn in Hf. subst err. rewrite IH, <- app_assoc. reflexivity.
Qed.

(** The fields of the client address step of [XMPP.UnmarshalTOML]: an
    error there returns [x] itself; otherwise the table is read on from a
    value that differs from [x] only in its address and password. *)
Lemma xmpp_unmarshal_jid (jp : string -> Jid.JID * error) (x : XMPP.XMPP)
  (conf : list (string * TOML)) :
  (exists s e, as_string (tbl_get conf "jid") = Some s /\ snd (jp s) = Some e /\
   XMPP.UnmarshalTOML jp x (TTable conf) = (x, Some ("failed parsing client JID: " ++ e))) \/
  exists x2,
    XMPP.recipientJIDs x2 = XMPP.recipientJIDs x /\ XMPP.noTLS x2 = XMPP.noTLS x /\
    XMPP.noVerifyTLS x2 = XMPP.noVerifyTLS x /\ XMPP.useStartTLS x2 = XMPP.useStartTLS x /\
    (forall s, as_string (tbl_get conf "jid") = Some s -> snd (jp s) = None) /\
    XMPP.UnmarshalTOML jp x (TTable conf) =
      let r3 := match as_string (tbl_get conf "recipients") with
                | None => (x2, None)
                | Some v =>
                    let '(rs, err) := XMPP.parse_recipients jp (XMPP.recipientJIDs x2) (Fields v) in
                    (XMPP.set_recipientJIDs x2 rs, err)
                end in
      match r3 with
      | (x3, Some e) => (x3, Some e)
      | (x3, None) =>
          let x4 := match as_bool (tbl_get conf "no-tls") with
                    | Some v => XMPP.set_noTLS x3 v | None => x3 end in
          let x5 := match as_bool (tbl_get conf "no-verify-tls") with
                    | Some v => XMPP.set_noVerifyTLS x4 v | None => x4 end in
          let x6 := match as_bool (tbl_get conf "use-starttls") with
                    | Some v => XMPP.set_useStartTLS x5 v | None => x5 end in
          (x6, None)
      end.
Proof.
  unfold XMPP.UnmarshalTOML.
  destruct (as_string (tbl_get conf "jid")) as [s|] eqn:Ej;
    [destruct (jp s) as [id [e|]] eqn:Ep|].
  - left. exists s, e. rewrite Ep. repeat split; reflexivity.
  - right. exists (match as_string (tbl_get conf "password") with
                   | Some v => XMPP.set_clientPassword (XMPP.set_clientJID x id) v
                   | None => XMPP.set_clientJID x id end).
    destruct (as_string (tbl_get conf "password")); cbn;
      (split; [reflexivity|]); (split; [reflexivity|]); (split; [reflexivity|]);
      (split; [reflexivity|]); (split; [|reflexivity]);
      intros s' Hs'; injection Hs' as <-; rewrite Ep; reflexivity.
  - right. exists (match as_string (tbl_get conf "password") with
                   | Some v => XMPP.set_clientPassword x v
                   | None => x end).
    destruct (as_string (tbl_get conf "password")); cbn;
      (split; [reflexivity|]); (split; [reflexivity|]); (split; [reflexivity|]);
      (split; [reflexivity|]); (split; [|reflexivity]);
      intros s' Hs'; discriminate Hs'.
Qed.

(** [strings.Fields], which [XMPP.UnmarshalTOML] uses to split the
    [recipients] setting, yields only non-empty fields with no white-space
    rune (ASCII or Unicode) at any byte offset. *)
Theorem Fields_no_space (s : string) :
  forall f, In f (Fields s) -> f <> "" /\ forall i, space_len (str_drop i f) = 0.
Proof.
  intros f Hin. refine (fields_aux_no_space s 0 "" _ _ f Hin).
  - intros H; exfalso; apply H; reflexivity.
  - intros i Hi. cbn in Hi. lia.
Qed.

(** [XMPP.UnmarshalTOML] ignores anything but a table. When it succeeds on
    a table with a [recipients] string, the recipients are the ones already
    configured followed by the parsed white-space separated entries of that
    string, in order; without a [recipients] string the recipients are left
    as they were. *)
Theorem XMPP_UnmarshalTOML_recipients (jp : string -> Jid.JID * error) (x : XMPP.XMPP) :
  (forall data, (forall conf, data <> TTable conf) -> XMPP.UnmarshalTOML jp x data = (x, None)) /\
  (forall conf v, as_string (tbl_get conf "recipients") = Some v ->
   snd (XMPP.UnmarshalTOML jp x (TTable conf)) = None ->
   XMPP.recipientJIDs (fst (XMPP.UnmarshalTOML jp x (TTable conf)))
     = (XMPP.recipientJIDs x ++ map (fun r => fst (jp r)) (Fields v))%list) /\
  (forall conf, as_string (tbl_get conf "recipients") = None ->
   XMPP.recipientJIDs (fst (XMPP.UnmarshalTOML jp x (TTable conf))) = XMPP.recipientJIDs x).
Proof.
  split; [|split].
  - intros data Hd. destruct data; try reflexivity. exfalso. eapply Hd. reflexivity.
  - intros conf v Hr. destruct (xmpp_unmarshal_jid jp x conf) as [[s [e [_ [_ ->]]]]|[x2 [Hx2 [_ [_ [_ [_ ->]]]]]]];
      [discriminate|].
    cbv beta iota zeta. rewrite Hr.
    pose proof (parse_recipients_ok jp (XMPP.recipientJIDs x2) (Fields v)) as Hok.
    destruct (XMPP.parse_recipients jp (XMPP.recipientJIDs x2) (Fields v)) as [rs [e|]];
      cbn [fst snd] in *; [discriminate|]. intros _. rewrite (Hok eq_refl), Hx2.
    destruct (as_bool (tbl_get conf "no-tls")), (as_bool (tbl_get conf "no-verify-tls")),
      (as_bool (tbl_get conf "use-starttls")); reflexivity.
  - intros conf Hr. destruct (xmpp_unmarshal_jid jp x conf) as [[s [e [_ [_ ->]]]]|[x2 [Hx2 [_ [_ [_ [_ ->]]]]]]];
      [reflexivity|].
    cbv beta iota zeta. rewrite Hr.
    destruct (as_bool (tbl_get conf "no-tls")), (as_bool (tbl_get conf "no-verify-tls")),
      (as_bool (tbl_get conf "use-starttls")); exact Hx2.
Qed.

Lemma XMPP_UnmarshalTOML_recipients_witness :
  XMPP.UnmarshalTOML Samples.jid_parse Samples.xmpp_two (TString "x") = (Samples.xmpp_two, None) /\
  XMPP.recipientJIDs (fst (XMPP.UnmarshalTOML Samples.jid_parse XMPP.empty
                             (TTable Samples.xmpp_conf)))
    = (XMPP.recipientJIDs XMPP.empty
       ++ map (fun r => fst (Samples.jid_parse r)) (Fields Samples.xmpp_recipients))%list /\
  XMPP.recipientJIDs (fst (XMPP.UnmarshalTOML Samples.jid_parse Samples.xmpp_two
                             (TTable [("no-tls", TBool true)]))) = XMPP.recipientJIDs Samples.xmpp_two.
Proof.
  destruct (XMPP_UnmarshalTOML_recipients Samples.jid_parse Samples.xmpp_two) as [H1 [_ H3]].
  destruct (XMPP_UnmarshalTOML_recipients Samples.jid_parse XMPP.empty) as [_ [H2 _]].
  split; [apply H1; intros conf H; discriminate H|].
  split; [apply H2; reflexivity|]. apply H3. reflexivity.
Defined.

(** When a recipient entry fails to parse, [XMPP.UnmarshalTOML] returns
    the parse error prefixed with [failed parsing recipient JID: ], keeps
    the recipients parsed before the failing entry, and does not apply the
    [no-tls], [no-verify-tls] and [use-starttls] settings. *)
Theorem XMPP_UnmarshalTOML_recipient_error (jp : string -> Jid.JID * error) (x : XMPP.XMPP)
  (conf : list (string * TOML)) (v : string) (pre post : list string) (r : string)
  (id : Jid.JID) (e : string) :
  (forall s, as_string (tbl_get conf "jid") = Some s -> snd (jp s) = None) ->
  as_string (tbl_get conf "recipients") = Some v ->
  Fields v = (pre ++ r :: post)%list ->
  Forall (fun f => snd (jp f) = None) pre ->
  jp r = (id, Some e) ->
  snd (XMPP.UnmarshalTOML jp x (TTable conf)) = Some ("failed parsing recipient JID: " ++ e) /\
  XMPP.recipientJIDs (fst (XMPP.UnmarshalTOML jp x (TTable conf)))
    = (XMPP.recipientJIDs x ++ map (fun f => fst (jp f)) pre)%list /\
  XMPP.noTLS (fst (XMPP.UnmarshalTOML jp x (TTable conf))) = XMPP.noTLS x /\
  XMPP.noVerifyTLS (fst (XMPP.UnmarshalTOML jp x (TTable conf))) = XMPP.noVerifyTLS x /\
  XMPP.useStartTLS (fst (XMPP.UnmarshalTOML jp x (TTable conf))) = XMPP.useStartTLS x.
Proof.
  intros Hj Hr Hf Hpre He.
  destruct (xmpp_unmarshal_jid jp x conf) as [[s [e' [Ej [Es _]]]]|[x2 [Hx2 [Hn [Hv [Hs [_ ->]]]]]]].
  - rewrite (Hj s Ej) in Es. discriminate Es.
  - cbv beta iota zeta. rewrite Hr, Hf, (parse_recipients_fail jp _ pre post r id e Hpre He).
    cbn. rewrite Hx2. repeat split; assumption.
Qed.

Lemma XMPP_UnmarshalTOML_recipient_error_witness :
  snd (XMPP.UnmarshalTOML Samples.jid_parse XMPP.empty (TTable Samples.xmpp_conf_bad))
    = Some ("failed parsing recipient JID: malformed JID") /\
  XMPP.recipientJIDs (fst (XMPP.UnmarshalTOML Samples.jid_parse XMPP.empty
                             (TTable Samples.xmpp_conf_bad)))
    = (XMPP.recipientJIDs XMPP.empty
       ++ map (fun f => fst (Samples.jid_parse f)) ["bob@example.org"])%list /\
  XMPP.noTLS (fst (XMPP.UnmarshalTOML Samples.jid_parse XMPP.empty
                     (TTable Samples.xmpp_conf_bad))) = XMPP.noTLS XMPP.empty /\
  XMPP.noVerifyTLS (fst (XMPP.UnmarshalTOML Samples.jid_parse XMPP.empty
                           (TTable Samples.xmpp_conf_bad))) = XMPP.noVerifyTLS XMPP.empty /\
  XMPP.useStartTLS (fst (XMPP.UnmarshalTOML Samples.jid_parse XMPP.empty
                           (TTable Samples.xmpp_conf_bad))) = XMPP.useStartTLS XMPP.empty.
Proof.
  apply (XMPP_UnmarshalTOML_recipient_error Samples.jid_parse XMPP.empty Samples.xmpp_conf_bad
           "bob@example.org  nobody" ["bob@example.org"] [] "nobody" Jid.zero "malformed JID").
  - intros s Hs. injection Hs as <-. reflexivity.
  - reflexivity.
  - vm_compute. reflexivity.
  - constructor; [reflexivity | constructor].
  - reflexivity.
Defined.

Lemma Fields_no_space_witness :
  "room@conf.example.org/bot" <> "" /\
  forall i, space_len (str_drop i "room@conf.example.org/bot") = 0.
Proof.
  apply (Fields_no_space Samples.xmpp_recipients "room@conf.example.org/bot").
  vm_compute. right. left. reflexivity.
Defined.

(** ** Service configuration and start-up *)

Lemma bind_gateways_ok (ks : Gateway.Registry Source) (kd : Gateway.Registry Destination)
  (entries : list (list (string * TOML))) :
  forall s : Service.Service HTTP.HTTP,
  snd (Service.bind_gateways ks kd entries s) = None ->
  fst (Service.bind_gateways ks kd entries s) =
    Service.mkService
      (Service.gateway s ++ map (fun e => fst (Gateway.UnmarshalTOML ks kd (TTable e) Gateway.New))
                               entries)%list
      (Service.handler s).
Proof.
  induction entries as [|e rest IH]; intros s.
  - intros _. destruct s as [gws h]. cbn. rewrite app_nil_r. reflexivity.
  - cbn [Service.bind_gateways map].
    destruct (Gateway.UnmarshalTOML ks kd (TTable e) Gateway.New) as [g [m|]] eqn:E;
      [discriminate|].
    intros H. rewrite (IH _ H). cbn [Service.gateway Service.handler fst].
    rewrite <- app_assoc. reflexivity.
Qed.

Lemma bind_gateways_fail (ks : Gateway.Registry Source) (kd : Gateway.Registry Destination)
  (pre post : list (list (string * TOML))) (e : list (string * TOML)) (m : string) :
  Forall (fun e' => snd (Gateway.UnmarshalTOML ks kd (TTable e') Gateway.New) = None) pre ->
  snd (Gateway.UnmarshalTOML ks kd (TTable e) Gateway.New) = Some m ->
  forall s : Service.Service HTTP.HTTP,
  Service.bind_gateways ks kd (pre ++ e :: post) s =
    (Service.mkService
       (Service.gateway s ++ map (fun e' => fst (Gateway.UnmarshalTOML ks kd (TTable e') Gateway.New))
                                pre)%list
       (Service.handler s),
     Some ("failed parsing gateway configuration: " ++ m)).
Proof.
  intros Hpre He. induction Hpre as [|e' pre He' Hpre IH]; intros s.
  - cbn [app Service.bind_gateways].
    destruct (Gateway.UnmarshalTOML ks kd (TTable e) Gateway.New) as [g err].
    cbn in He. subst err. destruct s as [gws h]. cbn. rewrite app_nil_r. reflexivity.
  - cbn [app Service.bind_gateways map].
    destruct (Gateway.UnmarshalTOML ks kd (TTable e') Gateway.New) as [g' err] eqn:E.
    cbn in He'. subst err. rewrite IH. cbn [Service.gateway Service.handler fst].
    rewrite <- app_assoc. reflexivity.
Qed.

Lemma service_unmarshal_table (ks : Gateway.Registry Source) (kd : Gateway.Registry Destination)
  (conf : list (string * TOML)) (s : Service.Service HTTP.HTTP) :
  Service.UnmarshalTOML ks kd (TTable conf) s =
  match as_table_array (tbl_get conf "gateway") with
  | None => (Service.mkService (Service.gateway s) (http_of conf (Service.handler s)), None)
  | Some entries =>
      Service.bind_gateways ks kd entries
        (Service.mkService (Service.gateway s) (http_of conf (Service.handler s)))
  end.
Proof.
  destruct s as [gws h]. unfold Service.UnmarshalTOML, http_of. cbn [Service.gateway Service.handler].
  destruct (as_table (tbl_get conf "http")); reflexivity.
Qed.

Lemma init_gateways_mux (mux_panic : list string -> string -> option string) (ctx : Context)
  (gws : list Gateway.Gateway) :
  forall i hs hs' gws' ev,
  Service.init_gateways HTTP.HTTP (HTTP.Handle mux_panic) ctx i hs gws = (hs', gws', ev, None) ->
  HTTP.mux hs' = (rev (map Gateway.HandleHTTP gws') ++ HTTP.mux hs)%list /\
  HTTP.host hs' = HTTP.host hs /\ HTTP.port hs' = HTTP.port hs /\ length gws' = length gws.
Proof.
  induction gws as [|g rest IH]; intros i hs hs' gws' ev H.
  - cbn in H. injection H as <- <- _. repeat split.
  - cbn [Service.init_gateways] in H.
    destruct (Gateway.Init ctx g) as [[g' evs] [e|]]; [discriminate|].
    cbn [Gateway.HandleHTTP] in H.
    destruct (HTTP.Handle mux_panic hs (Gateway.path g') (Gateway.handler g'))
      as [hs1 [e|]] eqn:Eh; [discriminate|].
    destruct (Service.init_gateways HTTP.HTTP (HTTP.Handle mux_panic) ctx (S i) hs1 rest)
      as [[[hs2 rest'] ev'] err'] eqn:Er.
    injection H as <- <- _ ->.
    destruct (IH _ _ _ _ _ Er) as [Hm [Hh [Hp Hl]]].
    unfold HTTP.Handle in Eh.
    destruct (mux_panic (map fst (HTTP.mux hs)) (Gateway.path g')); [discriminate|].
    injection Eh as <-.
    cbn [map rev length]. rewrite Hm, Hh, Hp, Hl, <- app_assoc. repeat split.
Qed.

Lemma service_init_mux (mux_panic : list string -> string -> option string)
  (net_Listen : string -> string -> error) (ctx : Context) (s : Service.Service HTTP.HTTP)
  (h0 : HTTP.HTTP) (h : option HTTP.HTTP) (gws : list Gateway.Gateway) (ev : list Service.SEvent) :
  Service.handler s = Some h0 ->
  Service.Init HTTP.HTTP (HTTP.Handle mux_panic) (HTTP.Init net_Listen) ctx s = (h, gws, ev, None) ->
  exists h', h = Some h' /\
    HTTP.mux h' = (rev (map Gateway.HandleHTTP gws)
                   ++ (Service.health_path, Service.health_handler) :: HTTP.mux h0)%list /\
    HTTP.host h' = HTTP.host h0 /\ HTTP.port h' = HTTP.port h0 /\
    length gws = length (Service.gateway s) /\ Service.gateway s <> [].
Proof.
  intros Hh. unfold Service.Init. rewrite Hh.
  destruct (Service.gateway s) as [|g0 gs] eqn:Eg; [discriminate|].
  unfold HTTP.Handle at 1.
  destruct (mux_panic (map fst (HTTP.mux h0)) Service.health_path); [discriminate|].
  destruct (Service.init_gateways HTTP.HTTP (HTTP.Handle mux_panic) ctx 0 _ (g0 :: gs))
    as [[[hs2 gws'] ev'] e2] eqn:Ei.
  destruct e2; [discriminate|].
  destruct (HTTP.Init net_Listen hs2 ctx); [discriminate|].
  intros H. injection H as <- <- _.
  destruct (init_gateways_mux mux_panic ctx _ _ _ _ _ _ Ei) as [Hm [Hho [Hp Hl]]].
  exists hs2. repeat split; try assumption. discriminate.
Qed.

(** [Service.UnmarshalTOML] refuses anything but a table. On a table it
    succeeds with the gateways it already had followed by one gateway per
    entry of the [gateway] array of tables, in order, each configured from
    a new gateway by [Gateway.UnmarshalTOML]; an [http] table replaces the
    handler by a new HTTP server on its [host] and [port] (empty when not
    strings), and without it the handler is left as it was. *)
Theorem Service_UnmarshalTOML_gateways (ks : Gateway.Registry Source)
  (kd : Gateway.Registry Destination) (s : Service.Service HTTP.HTTP) :
  (forall data, (forall conf, data <> TTable conf) ->
   Service.UnmarshalTOML ks kd data s = (s, Some "no valid configuration keys found")) /\
  (forall conf, snd (Service.UnmarshalTOML ks kd (TTable conf) s) = None ->
   Service.gateway (fst (Service.UnmarshalTOML ks kd (TTable conf) s)) =
     (Service.gateway s
      ++ map (fun e => fst (Gateway.UnmarshalTOML ks kd (TTable e) Gateway.New))
             (match as_table_array (tbl_get conf "gateway") with Some es => es | None => [] end))%list /\
   Service.handler (fst (Service.UnmarshalTOML ks kd (TTable conf) s)) =
     http_of conf (Service.handler s)).
Proof.
  split.
  - intros data Hd. destruct data; try reflexivity. exfalso. eapply Hd. reflexivity.
  - intros conf. rewrite service_unmarshal_table.
    destruct (as_table_array (tbl_get conf "gateway")) as [entries|].
    + intros H. rewrite (bind_gateways_ok ks kd entries _ H). split; reflexivity.
    + intros _. cbn. rewrite app_nil_r. split; reflexivity.
Qed.

Lemma Service_UnmarshalTOML_gateways_witness :
  Service.UnmarshalTOML Samples.known_sources Samples.known_destinations (TString "x") Service.New
    = (Service.New, Some "no valid configuration keys found") /\
  Service.gateway (fst (Service.UnmarshalTOML Samples.known_sources Samples.known_destinations
                          (TTable Samples.config_two) Service.New)) =
    (Service.gateway (@Service.New HTTP.HTTP)
     ++ map (fun e => fst (Gateway.UnmarshalTOML Samples.known_sources Samples.known_destinations
                             (TTable e) Gateway.New))
            [Samples.entry_grafana_xmpp; Samples.entry_alerts])%list /\
  Service.handler (fst (Service.UnmarshalTOML Samples.known_sources Samples.known_destinations
                          (TTable Samples.config_two) Service.New)) =
    Some (HTTP.NewHTTP "localhost" "8080").
Proof.
  destruct (Service_UnmarshalTOML_gateways Samples.known_sources Samples.known_destinations
              Service.New) as [H1 H2].
  split; [apply H1; intros conf H; discriminate H|].
  exact (H2 Samples.config_two eq_refl).
Defined.

(** When an entry of the [gateway] array fails to configure,
    [Service.UnmarshalTOML] returns its error prefixed with [failed parsing
    gateway configuration: ]; the gateways of the entries before it have
    already been added to the service, and none after it. *)
Theorem Service_UnmarshalTOML_gateway_error (ks : Gateway.Registry Source)
  (kd : Gateway.Registry Destination) (s : Service.Service HTTP.HTTP)
  (conf : list (string * TOML)) (pre post : list (list (string * TOML)))
  (e : list (string * TOML)) (m : string) :
  as_table_array (tbl_get conf "gateway") = Some (pre ++ e :: post)%list ->
  Forall (fun e' => snd (Gateway.UnmarshalTOML ks kd (TTable e') Gateway.New) = None) pre ->
  snd (Gateway.UnmarshalTOML ks kd (TTable e) Gateway.New) = Some m ->
  Service.UnmarshalTOML ks kd (TTable conf) s =
    (Service.mkService
       (Service.gateway s
        ++ map (fun e' => fst (Gateway.UnmarshalTOML ks kd (TTable e') Gateway.New)) pre)%list
       (http_of conf (Service.handler s)),
     Some ("failed parsing gateway configuration: " ++ m)).
Proof.
  intros Ha Hpre He. rewrite service_unmarshal_table, Ha.
  rewrite (bind_gateways_fail ks kd pre post e m Hpre He). reflexivity.
Qed.

Lemma Service_UnmarshalTOML_gateway_error_witness :
  Service.UnmarshalTOML Samples.known_sources Samples.known_destinations
    (TTable Samples.config_second_bad) Service.New =
    (Service.mkService
       (Service.gateway (@Service.New HTTP.HTTP)
        ++ map (fun e' => fst (Gateway.UnmarshalTOML Samples.known_sources
                                 Samples.known_destinations (TTable e') Gateway.New))
               [Samples.entry_grafana_xmpp])%list
       (http_of Samples.config_second_bad (Service.handler (@Service.New HTTP.HTTP))),
     Some ("failed parsing gateway configuration: "
           ++ "unknown source type 'unknown-vendor' given in gateway configuration")).
Proof.
  apply (Service_UnmarshalTOML_gateway_error Samples.known_sources Samples.known_destinations
           Service.New Samples.config_second_bad [Samples.entry_grafana_xmpp] []
           Samples.entry_unknown_source).
  - reflexivity.
  - constructor; [reflexivity | constructor].
  - reflexivity.
Defined.



(** When [main] reaches the serving state, the configuration decoded to a
    table with an [http] table and a non-empty [gateway] array with one running
    gateway per entry; the server listens on the configured host and port
    (empty when not strings), and its mux holds exactly the health check
    and, for each gateway in order, the gateway's path with its handler
    (most recent registration first). *)
Theorem main_serving (mux_panic : list string -> string -> option string)
  (net_Listen : string -> string -> error) (ks : Gateway.Registry Source)
  (kd : Gateway.Registry Destination) (decode_err : string -> string)
  (decoded : list (string * TOML) + string) (ctx : Context)
  (h : HTTP.HTTP) (gws : list Gateway.Gateway) :
  main mux_panic net_Listen ks kd decode_err decoded ctx = Serving h gws ->
  exists conf v entries,
    decoded = inl conf /\ as_table (tbl_get conf "http") = Some v /\
    as_table_array (tbl_get conf "gateway") = Some entries /\
    entries <> [] /\ length gws = length entries /\
    HTTP.host h = (match as_string (tbl_get v "host") with Some x => x | None => "" end) /\
    HTTP.port h = (match as_string (tbl_get v "port") with Some x => x | None => "" end) /\
    HTTP.mux h = (rev (map Gateway.HandleHTTP gws)
                  ++ [(Service.health_path, Service.health_handler)])%list.
Proof.
  unfold main.
  destruct decoded as [conf|e]; [|discriminate].
  destruct (Service_UnmarshalTOML_gateways ks kd Service.New) as [_ H2].
  specialize (H2 conf). rewrite service_unmarshal_table in H2 |- *.
  destruct (as_table_array (tbl_get conf "gateway")) as [entries|] eqn:Eg.
  - destruct (Service.bind_gateways ks kd entries
                (Service.mkService (Service.gateway (@Service.New HTTP.HTTP))
                   (http_of conf (Service.handler (@Service.New HTTP.HTTP)))))
      as [s [e|]] eqn:Eb; [discriminate|].
    destruct (H2 eq_refl) as [Hg Hh]. cbn [fst] in Hg, Hh. cbn in Hg, Hh.
    unfold http_of in Hh.
    destruct (as_table (tbl_get conf "http")) as [v|] eqn:Ehttp.
    + destruct (Service.Init HTTP.HTTP (HTTP.Handle mux_panic) (HTTP.Init net_Listen) ctx s)
        as [[[h' gws'] ev] [e|]] eqn:Ei; [destruct h'; cbn; discriminate|].
      destruct (service_init_mux mux_panic net_Listen ctx s _ h' gws' ev Hh Ei)
        as [h'' [-> [Hm [Hho [Hp [Hl Hne]]]]]].
      cbn. intros H. injection H as <- <-.
      exists conf, v, entries. rewrite Hg in Hl, Hne. rewrite length_map in Hl.
      repeat split; try assumption. intros ->. apply Hne. reflexivity.
    + unfold Service.Init. rewrite Hh. cbn. discriminate.
  - cbn [fst snd]. unfold Service.Init. cbn [Service.handler Service.gateway Service.New].
    destruct (http_of conf None); cbn; discriminate.
Qed.

Lemma main_serving_witness :
  exists conf v entries,
    (inl Samples.config_two : list (string * TOML) + string) = inl conf /\ as_table (tbl_get conf "http") = Some v /\
    as_table_array (tbl_get conf "gateway") = Some entries /\
    entries <> [] /\ length Samples.serving_gws = length entries /\
    HTTP.host Samples.serving_h = (match as_string (tbl_get v "host") with Some x => x | None => "" end) /\
    HTTP.port Samples.serving_h = (match as_string (tbl_get v "port") with Some x => x | None => "" end) /\
    HTTP.mux Samples.serving_h = (rev (map Gateway.HandleHTTP Samples.serving_gws)
                  ++ [(Service.health_path, Service.health_handler)])%list.
Proof.
  apply (main_serving Samples.mux_exact Samples.listen_ok Samples.known_sources
           Samples.known_destinations Samples.decode_err (inl Samples.config_two) Background).
  vm_compute. reflexivity.
Defined.

(** ** The Cloudflare Notifications source *)

Lemma parse_http_auth_fail (json_Unmarshal : string -> Notifications.Payload * error) (r : Request) :
  Gateway.GetSecret (req_Context r) <> "" ->
  Header_Get (req_header r) "cf-webhook-auth" <> Gateway.GetSecret (req_Context r) ->
  Notifications.ParseHTTP json_Unmarshal r =
    ([], Some (if String.eqb (Header_Get (req_header r) "cf-webhook-auth") ""
               then "cf-webhook-auth header not found" else "invalid authentication token")).
Proof.
  intros Hs Hh. unfold Notifications.ParseHTTP. cbv zeta.
  destruct (String.eqb_spec (Gateway.GetSecret (req_Context r)) "") as [E|_]; [contradiction|].
  cbn [negb].
  destruct (String.eqb (Header_Get (req_header r) "cf-webhook-auth") ""); [reflexivity|].
  destruct (String.eqb_spec (Header_Get (req_header r) "cf-webhook-auth")
              (Gateway.GetSecret (req_Context r))); [contradiction | reflexivity].
Qed.

Lemma parse_http_no_secret (json_Unmarshal : string -> Notifications.Payload * error)
  (r r' : Request) :
  Gateway.GetSecret (req_Context r) = "" -> Gateway.GetSecret (req_Context r') = "" ->
  req_body r = req_body r' ->
  Notifications.ParseHTTP json_Unmarshal r = Notifications.ParseHTTP json_Unmarshal r'.
Proof.
  intros Hs Hs' Hb. unfold Notifications.ParseHTTP. rewrite Hs, Hs', Hb. reflexivity.
Qed.

Lemma parse_http_auth_ok (json_Unmarshal : string -> Notifications.Payload * error) (r : Request) :
  Gateway.GetSecret (req_Context r) <> "" ->
  Header_Get (req_header r) "cf-webhook-auth" = Gateway.GetSecret (req_Context r) ->
  Notifications.ParseHTTP json_Unmarshal r
    = Notifications.ParseHTTP json_Unmarshal (mkRequest Background (req_header r) (req_body r)).
Proof.
  intros Hs Hh. unfold Notifications.ParseHTTP. cbv zeta.
  rewrite Hh. cbn [req_Context req_ctx req_body req_header].
  destruct (String.eqb_spec (Gateway.GetSecret (req_Context r)) "") as [E|_]; [contradiction|].
  rewrite String.eqb_refl. reflexivity.
Qed.

Lemma parse_http_body (json_Unmarshal : string -> Notifications.Payload * error) (r : Request)
  (buf t : string) :
  Gateway.GetSecret (req_Context r) = "" -> req_body r = BodyBytes buf ->
  json_Unmarshal buf = (Notifications.mkPayload t, None) -> t <> "" ->
  Notifications.ParseHTTP json_Unmarshal r = ([mkMessage t], None).
Proof.
  intros Hs Hb Hj Ht. unfold Notifications.ParseHTTP. rewrite Hs, Hb. cbn.
  rewrite Hj. cbn. destruct (String.eqb_spec t ""); [contradiction | reflexivity].
Qed.

(** With a secret in the request context, [Notifications.ParseHTTP] refuses
    a request whose [cf-webhook-auth] header is missing or empty with
    [cf-webhook-auth header not found] and one whose header differs from
    the secret with [invalid authentication token], in both cases without
    reading the body; with the header equal to the secret, the request is
    handled exactly as a request with the same body and no secret. *)
Theorem ParseHTTP_auth (json_Unmarshal : string -> Notifications.Payload * error) (r : Request) :
  Gateway.GetSecret (req_Context r) <> "" ->
  (Header_Get (req_header r) "cf-webhook-auth" = "" ->
   Notifications.ParseHTTP json_Unmarshal r = ([], Some "cf-webhook-auth header not found")) /\
  (Header_Get (req_header r) "cf-webhook-auth" <> "" ->
   Header_Get (req_header r) "cf-webhook-auth" <> Gateway.GetSecret (req_Context r) ->
   Notifications.ParseHTTP json_Unmarshal r = ([], Some "invalid authentication token")) /\
  (Header_Get (req_header r) "cf-webhook-auth" = Gateway.GetSecret (req_Context r) ->
   forall r', Gateway.GetSecret (req_Context r') = "" -> req_body r' = req_body r ->
   Notifications.ParseHTTP json_Unmarshal r = Notifications.ParseHTTP json_Unmarshal r').
Proof.
  intros Hs. split; [|split].
  - intros Hh. rewrite (parse_http_auth_fail json_Unmarshal r Hs); [|rewrite Hh; auto].
    rewrite Hh. reflexivity.
  - intros Hne Hh. rewrite (parse_http_auth_fail json_Unmarshal r Hs Hh).
    destruct (String.eqb_spec (Header_Get (req_header r) "cf-webhook-auth") "");
      [contradiction | reflexivity].
  - intros Hh r' Hs' Hb. rewrite (parse_http_auth_ok json_Unmarshal r Hs Hh).
    apply parse_http_no_secret; [reflexivity | exact Hs' | symmetry; exact Hb].
Qed.

Lemma ParseHTTP_auth_witness :
  Notifications.ParseHTTP Samples.json_text Samples.req_secret_none = ([], Some "cf-webhook-auth header not found") /\
  Notifications.ParseHTTP Samples.json_text Samples.req_secret_wrong = ([], Some "invalid authentication token") /\
  Notifications.ParseHTTP Samples.json_text Samples.req_secret_right
    = Notifications.ParseHTTP Samples.json_text (mkRequest Background [] (BodyBytes "Hello World")).
Proof.
  split; [|split].
  - destruct (ParseHTTP_auth Samples.json_text Samples.req_secret_none) as [H _];
      [intros H; discriminate H|].
    apply H. reflexivity.
  - destruct (ParseHTTP_auth Samples.json_text Samples.req_secret_wrong) as [_ [H _]];
      [intros H; discriminate H|].
    apply H; intros E; discriminate E.
  - destruct (ParseHTTP_auth Samples.json_text Samples.req_secret_right) as [_ [_ H]];
      [intros H; discriminate H|].
    apply H; reflexivity.
Defined.

(** [Notifications.ParseHTTP] never returns messages together with an
    error; when it returns no error, it has read the whole body, decoded
    it, and returns exactly one message, whose content is the decoded
    [text] field, which is not empty. *)
Theorem ParseHTTP_result_shape (json_Unmarshal : string -> Notifications.Payload * error)
  (r : Request) :
  (forall e, snd (Notifications.ParseHTTP json_Unmarshal r) = Some e ->
   fst (Notifications.ParseHTTP json_Unmarshal r) = []) /\
  (snd (Notifications.ParseHTTP json_Unmarshal r) = None ->
   exists buf p, io_ReadAll (req_body r) = (buf, None) /\ json_Unmarshal buf = (p, None) /\
     Notifications.Text p <> "" /\
     fst (Notifications.ParseHTTP json_Unmarshal r) = [mkMessage (Notifications.Text p)]).
Proof.
  unfold Notifications.ParseHTTP. cbv zeta.
  destruct (negb (String.eqb (Gateway.GetSecret (req_Context r)) "")).
  1: destruct (String.eqb (Header_Get (req_header r) "cf-webhook-auth") "");
       [split; [reflexivity | discriminate]|].
  1: destruct (negb (String.eqb (Header_Get (req_header r) "cf-webhook-auth")
                       (Gateway.GetSecret (req_Context r))));
       [split; [reflexivity | discriminate]|].
  all: destruct (io_ReadAll (req_body r)) as [buf [e|]] eqn:Eb;
         [split; [reflexivity | discriminate]|].
  all: destruct (json_Unmarshal buf) as [p [e|]] eqn:Ej; [split; [reflexivity | discriminate]|].
  all: destruct (String.eqb_spec (Notifications.Text p) "") as [Et|Et]; cbn [negb];
         [split; [reflexivity | discriminate]|].
  all: split; [intros e H; discriminate H|].
  all: intros _; exists buf, p; repeat split; assumption.
Qed.

Lemma ParseHTTP_result_shape_witness :
  fst (Notifications.ParseHTTP Samples.json_text Samples.req_secret_wrong) = [] /\
  exists buf p,
    io_ReadAll (req_body Samples.req_secret_right) = (buf, None) /\
    Samples.json_text buf = (p, None) /\ Notifications.Text p <> "" /\
    fst (Notifications.ParseHTTP Samples.json_text Samples.req_secret_right)
      = [mkMessage (Notifications.Text p)].
Proof.
  destruct (ParseHTTP_result_shape Samples.json_text Samples.req_secret_wrong) as [H1 _].
  destruct (ParseHTTP_result_shape Samples.json_text Samples.req_secret_right) as [_ H2].
  split; [apply (H1 "invalid authentication token"); reflexivity | apply H2; reflexivity].
Defined.

(** A route whose source is the Cloudflare Notifications adapter and whose
    secret is set answers a request without the matching [cf-webhook-auth]
    header with [400] and an authentication error, and calls its
    destination not at all; a request with the matching header and a body
    whose [text] is not empty is pushed to the destination as exactly one
    message with that text. *)
Theorem Notifications_route (json_Unmarshal : string -> Notifications.Payload * error)
  (g : Gateway.Gateway) (dst : Destination) (r : Request) :
  Gateway.source g = Some (Notifications.source json_Unmarshal) ->
  Gateway.destination g = Some dst -> Gateway.secret g <> "" ->
  (Header_Get (req_header r) "cf-webhook-auth" <> Gateway.secret g ->
   exists e, Notifications.is_auth_error e = true /\
     Gateway.handler g r
       = (Some (http_Error ("failed processing incoming request: " ++ e) StatusBadRequest),
          [EvParseHTTP])) /\
  (Header_Get (req_header r) "cf-webhook-auth" = Gateway.secret g ->
   forall buf t, req_body r = BodyBytes buf ->
   json_Unmarshal buf = (Notifications.mkPayload t, None) -> t <> "" ->
   snd (Gateway.handler g r) = [EvParseHTTP; EvPushMessages [mkMessage t]]).
Proof.
  intros Hsrc Hdst Hsec. split.
  - intros Hh. unfold Gateway.handler. rewrite Hsrc. cbn [src_ParseHTTP Notifications.source].
    rewrite (parse_http_auth_fail json_Unmarshal
               (WithContext r (Gateway.SetSecret (req_Context r) (Gateway.secret g))) Hsec Hh).
    cbn [fst snd negb orb]. eexists. split; [|reflexivity].
    cbn [WithContext req_header].
    destruct (String.eqb (Header_Get (req_header r) "cf-webhook-auth") ""); reflexivity.
  - intros Hh buf t Hb Hj Ht. unfold Gateway.handler. rewrite Hsrc. cbn [src_ParseHTTP Notifications.source].
    rewrite (parse_http_auth_ok json_Unmarshal
               (WithContext r (Gateway.SetSecret (req_Context r) (Gateway.secret g))) Hsec Hh).
    cbn [WithContext req_header req_body].
    rewrite (parse_http_body json_Unmarshal (mkRequest Background (req_header r) (req_body r))
               buf t eq_refl Hb Hj Ht).
    cbn. rewrite Hdst. destruct (dst_PushMessages dst _ _); reflexivity.
Qed.

Lemma Notifications_route_witness :
  (exists e, Notifications.is_auth_error e = true /\
     Gateway.handler Samples.gw_cf Samples.req_secret_none
       = (Some (http_Error ("failed processing incoming request: " ++ e) StatusBadRequest),
          [EvParseHTTP])) /\
  snd (Gateway.handler Samples.gw_cf Samples.req_cf_right)
    = [EvParseHTTP; EvPushMessages [mkMessage "Hello World"]].
Proof.
  destruct (Notifications_route Samples.json_text Samples.gw_cf Samples.dst_ok
              Samples.req_secret_none eq_refl eq_refl) as [H1 _];
    [intros H; discriminate H|].
  destruct (Notifications_route Samples.json_text Samples.gw_cf Samples.dst_ok
              Samples.req_cf_right eq_refl eq_refl) as [_ H2];
    [intros H; discriminate H|].
  split; [apply H1; intros H; discriminate H|].
  apply (H2 eq_refl "Hello World" "Hello World"); [reflexivity | reflexivity | intros H; discriminate H].
Defined.

(** ** Binding a route entry *)

(** A route entry that binds without error, and whose [source] and
    [destination] tables name registered types, yields a gateway with the
    entry's [secret] and [path] strings (empty when absent) and with the
    registered adapters; an adapter that reads its own configuration is
    configured from the sub-table named after its type when there is one,
    and is used as registered otherwise. *)
Theorem Gateway_UnmarshalTOML_bound (ks : Gateway.Registry Source)
  (kd : Gateway.Registry Destination) (conf ts td : list (string * TOML))
  (sname dname : string) (src : Source) (dst : Destination) :
  as_table (tbl_get conf "source") = Some ts -> as_string (tbl_get ts "type") = Some sname ->
  Gateway.reg_lookup ks sname = Some src ->
  as_table (tbl_get conf "destination") = Some td -> as_string (tbl_get td "type") = Some dname ->
  Gateway.reg_lookup kd dname = Some dst ->
  snd (Gateway.UnmarshalTOML ks kd (TTable conf) Gateway.New) = None ->
  Gateway.secret (fst (Gateway.UnmarshalTOML ks kd (TTable conf) Gateway.New))
    = (match as_string (tbl_get conf "secret") with Some x => x | None => "" end) /\
  Gateway.path (fst (Gateway.UnmarshalTOML ks kd (TTable conf) Gateway.New))
    = (match as_string (tbl_get conf "path") with Some x => x | None => "" end) /\
  Gateway.source (fst (Gateway.UnmarshalTOML ks kd (TTable conf) Gateway.New))
    = Some (match src_UnmarshalTOML src, as_table (tbl_get ts sname) with
            | Some f, Some sub => fst (f (TTable sub))
            | _, _ => src
            end) /\
  Gateway.destination (fst (Gateway.UnmarshalTOML ks kd (TTable conf) Gateway.New))
    = Some (match dst_UnmarshalTOML dst, as_table (tbl_get td dname) with
            | Some f, Some sub => fst (f (TTable sub))
            | _, _ => dst
            end).
Proof.
  intros Hs Hst Hsrc Hd Hdt Hdst.
  unfold Gateway.UnmarshalTOML, Gateway.bind_source, Gateway.bind_destination.
  cbv zeta. rewrite Hs, Hst, Hsrc, Hd, Hdt, Hdst.
  destruct (as_string (tbl_get conf "secret")), (as_string (tbl_get conf "path"));
    destruct (String.eqb sname ""), (String.eqb dname "");
    destruct (src_UnmarshalTOML src) as [f|], (as_table (tbl_get ts sname)) as [sub|];
    try destruct (f (TTable sub)) as [src' [e|]];
    destruct (dst_UnmarshalTOML dst) as [f'|], (as_table (tbl_get td dname)) as [sub'|];
    try destruct (f' (TTable sub')) as [dst' [e'|]];
    cbn; intros H; try discriminate H; repeat split.
Qed.

Lemma Gateway_UnmarshalTOML_bound_witness :
  Gateway.secret (fst (Gateway.UnmarshalTOML Samples.known_sources Samples.known_destinations
                         (TTable Samples.entry_grafana_xmpp) Gateway.New)) = "1234" /\
  Gateway.path (fst (Gateway.UnmarshalTOML Samples.known_sources Samples.known_destinations
                       (TTable Samples.entry_grafana_xmpp) Gateway.New)) = "" /\
  Gateway.source (fst (Gateway.UnmarshalTOML Samples.known_sources Samples.known_destinations
                         (TTable Samples.entry_grafana_xmpp) Gateway.New)) = Some Samples.src_one /\
  Gateway.destination (fst (Gateway.UnmarshalTOML Samples.known_sources Samples.known_destinations
                              (TTable Samples.entry_grafana_xmpp) Gateway.New))
    = Some Samples.dst_ok.
Proof.
  apply (Gateway_UnmarshalTOML_bound Samples.known_sources Samples.known_destinations
           Samples.entry_grafana_xmpp [("type", TString "grafana")] [("type", TString "xmpp")]
           "grafana" "xmpp" Samples.src_one Samples.dst_ok); reflexivity.
Defined.

(** When [XMPP.UnmarshalTOML] succeeds on a table, the client address is the
    parsed [jid] string and the password the [password] string when they
    are strings; each of [no-tls], [no-verify-tls] and [use-starttls] is
    taken when it is a boolean, and a value of any other type is ignored
    without error, leaving the setting as it was. *)
Theorem XMPP_UnmarshalTOML_settings (jp : string -> Jid.JID * error) (x : XMPP.XMPP)
  (conf : list (string * TOML)) :
  snd (XMPP.UnmarshalTOML jp x (TTable conf)) = None ->
  XMPP.clientJID (fst (XMPP.UnmarshalTOML jp x (TTable conf)))
    = (match as_string (tbl_get conf "jid") with Some s => fst (jp s) | None => XMPP.clientJID x end) /\
  XMPP.clientPassword (fst (XMPP.UnmarshalTOML jp x (TTable conf)))
    = (match as_string (tbl_get conf "password") with Some p => p | None => XMPP.clientPassword x end) /\
  XMPP.noTLS (fst (XMPP.UnmarshalTOML jp x (TTable conf)))
    = (match as_bool (tbl_get conf "no-tls") with Some b => b | None => XMPP.noTLS x end) /\
  XMPP.noVerifyTLS (fst (XMPP.UnmarshalTOML jp x (TTable conf)))
    = (match as_bool (tbl_get conf "no-verify-tls") with Some b => b | None => XMPP.noVerifyTLS x end) /\
  XMPP.useStartTLS (fst (XMPP.UnmarshalTOML jp x (TTable conf)))
    = (match as_bool (tbl_get conf "use-starttls") with Some b => b | None => XMPP.useStartTLS x end).
Proof.
  unfold XMPP.UnmarshalTOML. cbv zeta.
  destruct (as_string (tbl_get conf "jid")) as [s|]; [destruct (jp s) as [id [e|]]|];
    cbn [fst snd]; try (intros H; discriminate H);
    destruct (as_string (tbl_get conf "password"));
    (destruct (as_string (tbl_get conf "recipients")) as [v|];
     [destruct (XMPP.parse_recipients jp _ (Fields v)) as [rs [e'|]]|]);
    cbn [fst snd]; try (intros H; discriminate H); intros _;
    destruct (as_bool (tbl_get conf "no-tls")), (as_bool (tbl_get conf "no-verify-tls")),
      (as_bool (tbl_get conf "use-starttls")); repeat split.
Qed.

Lemma XMPP_UnmarshalTOML_settings_witness :
  XMPP.clientJID (fst (XMPP.UnmarshalTOML Samples.jid_parse XMPP.empty (TTable Samples.xmpp_conf)))
    = Samples.alice /\
  XMPP.clientPassword (fst (XMPP.UnmarshalTOML Samples.jid_parse XMPP.empty
                              (TTable Samples.xmpp_conf))) = "secret" /\
  XMPP.noTLS (fst (XMPP.UnmarshalTOML Samples.jid_parse XMPP.empty (TTable Samples.xmpp_conf)))
    = false /\
  XMPP.noVerifyTLS (fst (XMPP.UnmarshalTOML Samples.jid_parse XMPP.empty
                           (TTable Samples.xmpp_conf))) = false /\
  XMPP.useStartTLS (fst (XMPP.UnmarshalTOML Samples.jid_parse XMPP.empty
                           (TTable Samples.xmpp_conf))) = true.
Proof.
  apply (XMPP_UnmarshalTOML_settings Samples.jid_parse XMPP.empty Samples.xmpp_conf).
  vm_compute. reflexivity.
Defined.
